(** * StressSense model pipelines: a shallow embedding and its properties

  The repository holds two scripts:
  - [ml_model/train_model.py]: synthetic data, a random-forest classifier,
    evaluation and persistence with joblib;
  - [ml_model/convert_to_tflite.py]: synthetic data, a small Keras network,
    conversion to TFLite and a sample prediction.

  Numbers.  Every finite float is a rational, so array elements are taken
  in [Q] and the element-wise arithmetic of the scripts (scores,
  normalization) is read as exact arithmetic; the rounding of these
  operations moves a value by a few units in the last place and is not part
  of the model.  The labels are different: they come from a rank and a
  comparison, which one rounding can flip.  [np.percentile] and the
  comparison with its result are therefore modelled in binary64, operation
  by operation: [float64] rounds a rational to the nearest double, ties to
  even, with the subnormal range; both functions read the elements of their
  array argument as doubles.  Overflow to infinity is not modelled: the
  statements that depend on it are made for scores of magnitude at most
  2^1022, where no operation of [np.percentile] overflows.
  NumPy, scikit-learn, joblib and TensorFlow are libraries outside the
  repository: what the scripts need of them is gathered in interfaces
  ([NumpyRandom], [Sklearn], [Tensorflow]) whose operations stay abstract. *)

From Stdlib Require Import String Ascii Bool.
From Stdlib Require Import QArith Qround Qabs Qpower ZArith Lia Lqa List.
From Stdlib Require Import Sorting.Sorted Sorting.Permutation DecimalString.
Import ListNotations.

Open Scope Q_scope.

(** ** Python exceptions *)

Inductive Exn : Type :=
| FileNotFoundError (path : string)
| UnpicklingError (path : string)
| ValueError (msg : string)
| IndexError.

(** ** NumPy: arrays, element-wise arithmetic, percentile, random draws *)

Module Np.

(** A one-dimensional float array. *)
Definition ndarray := list Q.

Fixpoint zip_with (f : Q -> Q -> Q) (a b : ndarray) : ndarray :=
  match a, b with
  | x :: a', y :: b' => f x y :: zip_with f a' b'
  | _, _ => []
  end.

(** [a + b] and [a - b] on arrays of one shape (the only use in the
    scripts: every column is drawn with [size=n_samples]). *)
Definition add (a b : ndarray) : ndarray := zip_with Qplus a b.
Definition sub (a b : ndarray) : ndarray := zip_with Qminus a b.

(** [a * c], [a - c], [a / c] with a scalar [c]. *)
Definition mul_scalar (a : ndarray) (c : Q) : ndarray := map (fun x => x * c) a.
Definition sub_scalar (a : ndarray) (c : Q) : ndarray := map (fun x => x - c) a.
Definition div_scalar (a : ndarray) (c : Q) : ndarray := map (fun x => x / c) a.

(** Strict comparison of floats. *)
Definition Qltb (x y : Q) : bool := negb (Qle_bool y x).

(** [np.sort]: the elements in ascending order. *)
Fixpoint insert (x : Q) (l : ndarray) : ndarray :=
  match l with
  | [] => [x]
  | y :: l' => if Qle_bool x y then x :: l else y :: insert x l'
  end.

Fixpoint sort (l : ndarray) : ndarray :=
  match l with
  | [] => []
  | x :: l' => insert x (sort l')
  end.

(** *** binary64

    [float64 x] is the double nearest to the rational [x]: a 53-bit integer
    times a power of two whose exponent is at least -1074, chosen by
    rounding to nearest, ties to even. *)
Definition pow2 (e : Z) : Q := 2 ^ e.

(** The binary logarithm of a positive rational, rounded down. *)
Definition ilog2 (x : Q) : Z :=
  let l := (Z.log2 (Qnum x) - Z.log2 (Z.pos (Qden x)))%Z in
  if Qle_bool (pow2 l) x then l else (l - 1)%Z.

(** The integer nearest to [x]; halfway, the even one. *)
Definition round_half_even (x : Q) : Z :=
  let f := Qfloor x in
  match Qcompare (x - inject_Z f) (1 # 2) with
  | Lt => f
  | Gt => (f + 1)%Z
  | Eq => if Z.even f then f else (f + 1)%Z
  end.

(** The exponent of the last place of the double nearest to [x > 0]. *)
Definition exponent (x : Q) : Z := Z.max (-1074) (ilog2 x - 52).

(** The double nearest to [x > 0]. *)
Definition float64_pos (x : Q) : Q :=
  inject_Z (round_half_even (x / pow2 (exponent x))) * pow2 (exponent x).

Definition float64 (x : Q) : Q :=
  match Qcompare x 0 with
  | Eq => 0
  | Gt => float64_pos x
  | Lt => - float64_pos (- x)
  end.

(** [np.asanyarray(a)] for float data: the elements as doubles. *)
Definition asanyarray (a : ndarray) : ndarray := map float64 a.

(** [a[i]] for an integer [i]: a negative index counts from the end (the
    indices [percentile] uses are in range, see [percentile_70_bounds]). *)
Definition item (a : ndarray) (i : Z) : Q :=
  nth (Z.to_nat (if (i <? 0)%Z then Z.of_nat (length a) + i else i)) a 0.

(** [_lerp(a, b, t)] of [numpy/lib/function_base.py]: [a + (b - a) * t],
    computed from the side of [b] when [t >= 0.5]. *)
Definition lerp (a b t : Q) : Q :=
  let diff_b_a := float64 (b - a) in
  if Qle_bool (1 # 2) t
  then float64 (b - float64 (diff_b_a * float64 (1 - t)))
  else float64 (a + float64 (diff_b_a * t)).

(** [np.percentile(a, q)] with the default method, as [_quantile] computes
    it: the virtual index [(n - 1) * (q / 100)], the two ranks around it (both
    the last one when the virtual index reaches [n - 1], both the first one
    when it is negative), their elements in the sorted array, and the linear
    interpolation with weight [gamma].  On an empty array NumPy raises
    [IndexError]. *)
Definition percentile (a : ndarray) (q : Q) : Exn + Q :=
  let arr := sort (asanyarray a) in
  let values_count := length arr in
  if (values_count =? 0)%nat then inl IndexError
  else
    let quantile := float64 (float64 q / 100) in
    let last := float64 (inject_Z (Z.of_nat values_count - 1)) in
    let virtual_index := float64 (last * quantile) in
    let above_bounds := Qle_bool last virtual_index in
    let below_bounds := Qltb virtual_index 0 in
    let previous_index :=
      if below_bounds then 0%Z else if above_bounds then (-1)%Z
      else Qfloor virtual_index in
    let next_index :=
      if below_bounds then 0%Z else if above_bounds then (-1)%Z
      else (Qfloor virtual_index + 1)%Z in
    let gamma := float64 (virtual_index - inject_Z previous_index) in
    inr (lerp (item arr previous_index) (item arr next_index) gamma).

(** [(a > t).astype(...)]: 1 where the comparison holds, 0 elsewhere; the
    elements of [a] are compared as the doubles the array holds. *)
Definition greater_than (a : ndarray) (t : Q) : ndarray :=
  map (fun x => if Qltb t (float64 x) then 1 else 0) a.

(** [np.column_stack([c0, c1, c2, c3])]: the rows of a four-column matrix. *)
Fixpoint column_stack4 (c0 c1 c2 c3 : ndarray) : list (list Q) :=
  match c0, c1, c2, c3 with
  | x0 :: r0, x1 :: r1, x2 :: r2, x3 :: r3 =>
      [x0; x1; x2; x3] :: column_stack4 r0 r1 r2 r3
  | _, _, _, _ => []
  end.

(** Python's [int(x)] on a float: truncation towards zero. *)
Definition py_int (x : Q) : Z := Z.quot (Qnum x) (Z.pos (Qden x)).

(** Python slices [l[:k]] and [l[k:]]; a negative [k] counts from the end. *)
Definition slice_index {A} (k : Z) (l : list A) : nat :=
  if (k <? 0)%Z then (length l - Z.to_nat (- k))%nat else Z.to_nat k.
Definition slice_to {A} (k : Z) (l : list A) : list A := firstn (slice_index k l) l.
Definition slice_from {A} (k : Z) (l : list A) : list A := skipn (slice_index k l) l.

(** The global generator of [np.random].  [rng_seed k] is the state that
    [np.random.seed(k)] installs, whatever the state was before; a draw
    returns [size] values and the state that follows. *)
Class NumpyRandom := {
  rng_state : Type;
  rng_seed : Z -> rng_state;
  rng_normal : Q -> Q -> nat -> rng_state -> ndarray * rng_state;
  rng_beta : Q -> Q -> nat -> rng_state -> ndarray * rng_state;
  rng_exponential : Q -> nat -> rng_state -> ndarray * rng_state;
  rng_normal_size : forall loc scale n s,
      length (fst (rng_normal loc scale n s)) = n;
  rng_beta_size : forall a b n s,
      length (fst (rng_beta a b n s)) = n;
  rng_exponential_size : forall scale n s,
      length (fst (rng_exponential scale n s)) = n
}.

End Np.

Import Np.

(** A pandas data frame for our purposes: named float columns, in insertion
  order. *)
Definition DataFrame := list (string * ndarray).

Definition df_drop (name : string) (df : DataFrame) : DataFrame :=
filter (fun c => negb (String.eqb (fst c) name)) df.

Fixpoint df_get (name : string) (df : DataFrame) : ndarray :=
match df with
| [] => []
| (k, col) :: rest => if String.eqb k name then col else df_get name rest
end.

Definition df_columns (df : DataFrame) : list string := map fst df.

Definition df_len (df : DataFrame) : nat :=
  match df with
  | [] => 0%nat
  | (_, col) :: _ => length col
  end.

(** Row selection [a[idx]] by a list of positions, on an array, on the rows of
    a matrix and on a frame. *)
Definition take (idx : list nat) (a : ndarray) : ndarray :=
  map (fun i => nth i a 0) idx.

Definition take_rows (idx : list nat) (X : list (list Q)) : list (list Q) :=
  map (fun i => nth i X []) idx.

Definition df_take (idx : list nat) (df : DataFrame) : DataFrame :=
  map (fun c => (fst c, take idx (snd c))) df.

(** ** Python runtime: text *)

Definition nl : string := String (ascii_of_nat 10) EmptyString.

Definition nat_to_string (n : nat) : string :=
  NilZero.string_of_uint (Nat.to_uint n).

(** What Python prints for a float under a fixed-point format
    ([f"{x:.4f}"] is [format_fixed 4 x]). *)
Class PythonText := {
  format_fixed : nat -> Q -> string
}.

(** ** scikit-learn and joblib *)

Record RandomForestParams := {
  n_estimators : nat;
  random_state : Z;
  max_depth : option nat
}.

Class Sklearn := {
  RandomForestClassifier : Type;
  (** [RandomState(seed).permutation(n)], the shuffle behind [train_test_split]. *)
  sk_permutation : Z -> nat -> list nat;
  sk_permutation_perm : forall seed n, Permutation (seq 0 n) (sk_permutation seed n);
  rf_fit : RandomForestParams -> DataFrame -> ndarray -> RandomForestClassifier;
  rf_predict : RandomForestClassifier -> DataFrame -> ndarray;
  rf_feature_importances : RandomForestClassifier -> ndarray;
  classification_report : ndarray -> ndarray -> string;
  joblib_dumps : RandomForestClassifier -> list Byte.byte;
  joblib_loads : list Byte.byte -> option RandomForestClassifier
}.

Section SklearnFunctions.
Context {S : Sklearn}.

(** [train_test_split(X, y, test_size=..., random_state=...)]: the test part
    takes [ceil(test_size * n)] rows, the train part the others, both in the
    order of one seeded permutation of the row positions.  An empty train part
    is refused. *)
Definition train_test_split (X : DataFrame) (y : ndarray) (test_size : Q) (seed : Z)
  : Exn + ((DataFrame * DataFrame) * (ndarray * ndarray)) :=
  let n := df_len X in
  let n_test := Z.to_nat (Qceiling (test_size * inject_Z (Z.of_nat n))) in
  let n_train := (n - n_test)%nat in
  if (n_train =? 0)%nat then inl (ValueError "the resulting train set will be empty")
  else
    let permutation := sk_permutation seed n in
    let ind_test := firstn n_test permutation in
    let ind_train := firstn n_train (skipn n_test permutation) in
    inr ((df_take ind_train X, df_take ind_test X), (take ind_train y, take ind_test y)).

(** [accuracy_score(y_true, y_pred)]: the share of positions that agree. *)
Definition accuracy_score (y_true y_pred : ndarray) : Q :=
  let hits := filter (fun p => Qeq_bool (fst p) (snd p)) (combine y_true y_pred) in
  inject_Z (Z.of_nat (length hits)) / inject_Z (Z.of_nat (length y_true)).

End SklearnFunctions.

(** ** Keras and TensorFlow Lite *)

Inductive Activation : Type := relu | sigmoid.

Inductive Layer : Type :=
| InputLayer (input_shape : nat)
| Dense (units : nat) (activation : Activation)
| BatchNormalization
| Dropout (rate : Q).

Inductive Optimizer : Type := Adam (learning_rate : Q).

Record CompileConfig := {
  optimizer : Optimizer;
  loss : string;
  metrics : list string
}.

Inductive Optimize : Type := DEFAULT.

Class Tensorflow := {
  (** TensorFlow's own random state (initialisers, shuffling, dropout); the
      scripts never seed it. *)
  tf_state : Type;
  Weights : Type;
  tf_initialize : list Layer -> tf_state -> Weights * tf_state;
  tf_shuffle : nat -> tf_state -> list nat * tf_state;
  tf_shuffle_perm : forall n s, Permutation (seq 0 n) (fst (tf_shuffle n s));
  (** One optimizer step on one batch. *)
  tf_train_step : list Layer -> CompileConfig -> Weights -> list (list Q) -> ndarray ->
                  tf_state -> Weights * tf_state;
  (** Loss and accuracy of the current weights on a data set. *)
  tf_evaluate : list Layer -> CompileConfig -> Weights -> list (list Q) -> ndarray -> Q * Q;
  keras_serialize : list Layer -> CompileConfig -> Weights -> list Byte.byte;
  tflite_convert : list Optimize -> list Layer -> Weights -> list Byte.byte;
  (** [set_tensor], [invoke], [get_tensor] of an interpreter on a model file. *)
  tflite_invoke : list Byte.byte -> list (list Q) -> list (list Q)
}.

(** A compiled [Sequential] model: a mutable Python object, here a value
    that [fit] replaces. *)
Record KerasModel {T : Tensorflow} := {
  layers : list Layer;
  compiled : CompileConfig;
  weights : Weights
}.

(** ** The world a script runs in, and the monad of its effects *)

Section Runtime.
Context {R : NumpyRandom} {T : Tensorflow}.

Record World := {
  fs : string -> option (list Byte.byte);
  stdout : list string;
  np_random : rng_state;
  tf_random : tf_state
}.

Definition M (A : Type) : Type := World -> (Exn + A) * World.

Definition ret {A} (a : A) : M A := fun w => (inr a, w).

Definition bind {A B} (c : M A) (k : A -> M B) : M B :=
  fun w =>
    match c w with
    | (inl e, w') => (inl e, w')
    | (inr a, w') => k a w'
    end.

Definition raise {A} (e : Exn) : M A := fun w => (inl e, w).

Definition lift {A} (r : Exn + A) : M A := fun w => (r, w).

(** The ways a script changes the world. *)
Definition put_lines (lines : list string) (w : World) : World :=
  {| fs := fs w; stdout := stdout w ++ lines;
     np_random := np_random w; tf_random := tf_random w |}.

Definition put_file (path : string) (content : list Byte.byte) (w : World) : World :=
  {| fs := fun p => if String.eqb p path then Some content else fs w p;
     stdout := stdout w;
     np_random := np_random w; tf_random := tf_random w |}.

Definition set_np_random (s : rng_state) (w : World) : World :=
  {| fs := fs w; stdout := stdout w; np_random := s; tf_random := tf_random w |}.

Definition set_tf_random (s : tf_state) (w : World) : World :=
  {| fs := fs w; stdout := stdout w; np_random := np_random w; tf_random := s |}.

Definition print (line : string) : M unit :=
  fun w => (inr tt, put_lines [line] w).

(** [open(path, "wb")] then [write]: file systems that refuse the write are
    not modelled. *)
Definition write_file (path : string) (content : list Byte.byte) : M unit :=
  fun w => (inr tt, put_file path content w).

Definition read_file (path : string) : M (list Byte.byte) :=
  fun w => match fs w path with
           | Some content => (inr content, w)
           | None => (inl (FileNotFoundError path), w)
           end.

(** A call that works on the global NumPy generator, and returns or raises. *)
Definition with_np_random {A} (f : rng_state -> (Exn + A) * rng_state) : M A :=
  fun w => let '(r, s) := f (np_random w) in (r, set_np_random s w).

(** A computation on TensorFlow's random state. *)
Definition with_tf_random {A} (f : tf_state -> A * tf_state) : M A :=
  fun w => let '(a, s) := f (tf_random w) in (inr a, set_tf_random s w).

End Runtime.

Declare Scope script_scope.
Delimit Scope script_scope with script.
Notation "x <- c ;; k" := (bind c (fun x => k))
  (at level 61, c at next level, right associativity) : script_scope.
Notation "' p <- c ;; k" := (bind c (fun x => let 'p := x in k))
  (at level 61, p pattern, c at next level, right associativity) : script_scope.
Notation "c ;; k" := (bind c (fun _ => k))
  (at level 61, right associativity) : script_scope.

Open Scope string_scope.

(** ** Keras: the training loop behind [fit], and the other model methods *)

Section Keras.
Context {R : NumpyRandom} {T : Tensorflow}.

(** Number of optimizer steps of one epoch: [ceil(n / batch_size)]. *)
Definition steps_per_epoch (n batch_size : nat) : nat :=
  ((n + batch_size - 1) / batch_size)%nat.

(** The consecutive slices [l[i*batch_size : (i+1)*batch_size]]. *)
Fixpoint batches {A} (steps batch_size : nat) (l : list A) : list (list A) :=
  match steps with
  | O => []
  | S k => firstn batch_size l :: batches k batch_size (skipn batch_size l)
  end.

(** One epoch: shuffle the training rows, then one step per batch. *)
Definition run_epoch (ls : list Layer) (cfg : CompileConfig) (batch_size : nat)
  (X : list (list Q)) (y : ndarray) (st : Weights * tf_state) : Weights * tf_state :=
  let '(idx, s) := tf_shuffle (length X) (snd st) in
  let steps := steps_per_epoch (length X) batch_size in
  fold_left
    (fun acc b => tf_train_step ls cfg (fst acc) (fst b) (snd b) (snd acc))
    (combine (batches steps batch_size (take_rows idx X))
             (batches steps batch_size (take idx y)))
    (fst st, s).

(** A callback sees the epoch number and the validation loss and accuracy at
    the end of the epoch and may set [stop_training]. *)
Definition Callback : Type := nat -> Q * Q -> bool.

Definition epoch_header (epoch epochs : nat) : string :=
  "Epoch " ++ nat_to_string (S epoch) ++ "/" ++ nat_to_string epochs.

(** The loop of [fit]: [remaining] epochs are still to run, [epoch] have been
    run.  With [verbose=1] each epoch writes its header; the progress line
    under it is left out.  Yields the state after training, the per-epoch
    validation logs and the lines written. *)
Fixpoint fit_epochs (ls : list Layer) (cfg : CompileConfig) (batch_size epochs : nat)
  (callbacks : list Callback) (X : list (list Q)) (y : ndarray)
  (X_val : list (list Q)) (y_val : ndarray)
  (remaining epoch : nat) (st : Weights * tf_state) (history : list (Q * Q))
  (out : list string) : (Weights * tf_state) * (list (Q * Q) * list string) :=
  match remaining with
  | O => (st, (history, out))
  | S r =>
      let out := (out ++ [epoch_header epoch epochs])%list in
      let st := run_epoch ls cfg batch_size X y st in
      let logs := tf_evaluate ls cfg (fst st) X_val y_val in
      let history := (history ++ [logs])%list in
      if existsb (fun cb => cb epoch logs) callbacks
      then (st, (history, out))
      else fit_epochs ls cfg batch_size epochs callbacks X y X_val y_val
                      r (S epoch) st history out
  end.

(** [model.fit(X, y, validation_data=(X_val, y_val), epochs=..., batch_size=...,
    verbose=1)], with the callbacks the caller passes (none by default). *)
Definition keras_fit (m : KerasModel) (X : list (list Q)) (y : ndarray)
  (X_val : list (list Q)) (y_val : ndarray) (epochs batch_size : nat)
  (callbacks : list Callback) : M (KerasModel * list (Q * Q)) :=
  fun w =>
    let '((wt, s), (history, out)) :=
      fit_epochs (layers m) (compiled m) batch_size epochs callbacks X y X_val y_val
                 epochs 0 (weights m, tf_random w) [] [] in
    (inr ({| layers := layers m; compiled := compiled m; weights := wt |}, history),
     set_tf_random s (put_lines out w)).

(** [model.evaluate(X, y)]: loss and accuracy (its progress line is left out). *)
Definition keras_evaluate (m : KerasModel) (X : list (list Q)) (y : ndarray) : M (Q * Q) :=
  ret (tf_evaluate (layers m) (compiled m) (weights m) X y).

Definition keras_save (m : KerasModel) (path : string) : M unit :=
  write_file path (keras_serialize (layers m) (compiled m) (weights m)).

(** [tf.lite.Interpreter(model_path=...)], [set_tensor], [invoke],
    [get_tensor]. *)
Definition tflite_run (model_path : string) (input : list (list Q)) : M (list (list Q)) :=
  bind (read_file model_path) (fun content => ret (tflite_invoke content input)).

(** [a[0][0]] on a two-dimensional array. *)
Definition item00 (a : list (list Q)) : M Q :=
  match a with
  | (x :: _) :: _ => ret x
  | _ => raise IndexError
  end.

Fixpoint for_each {A} (l : list A) (body : A -> M unit) : M unit :=
  match l with
  | [] => ret tt
  | x :: l' => bind (body x) (fun _ => for_each l' body)
  end.

End Keras.

(** ** train_model.py *)

Module TrainModel.
Section Script.
Context {R : NumpyRandom} {S : Sklearn} {T : Tensorflow} {P : PythonText}.

(** Lines 33-38: the score that decides the labels. *)
Definition stress_score (typing_speed backspace_ratio touch_pressure session_length : ndarray)
  : ndarray :=
  sub (add (add (mul_scalar typing_speed 0.5)
                (mul_scalar backspace_ratio 10))
           (mul_scalar touch_pressure 3))
      (mul_scalar session_length 0.01).

(** Lines 42-43: the labels, or the exception [np.percentile] raises. *)
Definition label (score : ndarray) : Exn + ndarray :=
  match percentile score 70 with
  | inr threshold => inr (greater_than score threshold)
  | inl e => inl e
  end.

(** [generate_synthetic_data(n_samples)], run from the generator state [s0]:
    the frame it returns or the exception it raises, and the generator state
    it leaves. *)
Definition generate_synthetic_data (n_samples : nat) (s0 : rng_state)
  : (Exn + DataFrame) * rng_state :=
  let s := rng_seed 42 in
  let '(typing_speed, s) := rng_normal 5.0 1.5 n_samples s in
  let '(backspace_ratio, s) := rng_beta 2 10 n_samples s in
  let '(touch_pressure, s) := rng_normal 0.6 0.2 n_samples s in
  let '(session_length, s) := rng_exponential 60 n_samples s in
  let score := stress_score typing_speed backspace_ratio touch_pressure session_length in
  match label score with
  | inr labels =>
      (inr [("typing_speed", typing_speed);
            ("backspace_ratio", backspace_ratio);
            ("touch_pressure", touch_pressure);
            ("session_length", session_length);
            ("is_stressed", labels)], s)
  | inl e => (inl e, s)
  end.

Definition model_filename : string := "stress_rf_model.pkl".

Definition forest_params : RandomForestParams :=
  {| n_estimators := 100; random_state := 42; max_depth := Some 10%nat |}.

Definition shape_string (X : DataFrame) : string :=
  "(" ++ nat_to_string (df_len X) ++ ", " ++ nat_to_string (length X) ++ ")".

(** [train_model()]. *)
Definition train_model : M unit :=
  (print "Generating synthetic data..." ;;
   df <- with_np_random (generate_synthetic_data 1000) ;;
   let X := df_drop "is_stressed" df in
   let y := df_get "is_stressed" df in
   print ("Dataset shape: " ++ shape_string X) ;;
   '((X_train, X_test), (y_train, y_test)) <- lift (train_test_split X y 0.2 42) ;;
   print "Training model..." ;;
   let model := rf_fit forest_params X_train y_train in
   let preds := rf_predict model X_test in
   let acc := accuracy_score y_test preds in
   print ("Model Accuracy: " ++ format_fixed 4 acc) ;;
   print (nl ++ "Classification Report:") ;;
   print (classification_report y_test preds) ;;
   write_file model_filename (joblib_dumps model) ;;
   print ("Model saved to " ++ model_filename) ;;
   print (nl ++ "Feature Importances:") ;;
   for_each (combine (df_columns X) (rf_feature_importances model))
            (fun p => print (fst p ++ ": " ++ format_fixed 4 (snd p))))%script.

(** The file run as a script (lines 94-95). *)
Definition main : M unit := train_model.

End Script.
End TrainModel.

(** ** convert_to_tflite.py *)

Module ConvertToTflite.
Section Script.
Context {R : NumpyRandom} {S : Sklearn} {T : Tensorflow} {P : PythonText}.

(** [joblib.load(path)]. *)
Definition joblib_load (path : string) : M RandomForestClassifier :=
  (content <- read_file path ;;
   match joblib_loads content with
   | Some m => ret m
   | None => raise (UnpicklingError path)
   end)%script.

(** Lines 14-24: the layers handed to [Sequential]. *)
Definition stress_model_layers : list Layer :=
  [ InputLayer 4;
    Dense 32 relu;
    BatchNormalization;
    Dropout 0.3%Q;
    Dense 16 relu;
    BatchNormalization;
    Dropout 0.2%Q;
    Dense 8 relu;
    Dense 1 sigmoid ].

(** Lines 26-30. *)
Definition stress_model_compile : CompileConfig :=
  {| optimizer := Adam 0.001%Q; loss := "binary_crossentropy"; metrics := ["accuracy"] |}.

(** [create_stress_model()]: fresh weights come from TensorFlow's initialisers. *)
Definition create_stress_model : M KerasModel :=
  (w <- with_tf_random (tf_initialize stress_model_layers) ;;
   ret {| layers := stress_model_layers; compiled := stress_model_compile; weights := w |})%script.

(** Lines 43-46, one feature at a time. *)
Definition normalize_typing_speed (a : ndarray) : ndarray :=
  div_scalar (sub_scalar a 5.0%Q) 1.5%Q.

Definition normalize_backspace_ratio (a : ndarray) : ndarray :=
  mul_scalar a 5%Q.

Definition normalize_touch_pressure (a : ndarray) : ndarray :=
  div_scalar (sub_scalar a 0.6%Q) 0.2%Q.

Definition normalize_session_length (a : ndarray) : ndarray :=
  div_scalar (sub_scalar a 60%Q) 60%Q.

(** Lines 51-56: the score, computed on the columns as they are at that point
    of the function. *)
Definition stress_score (typing_speed backspace_ratio touch_pressure session_length : ndarray)
  : ndarray :=
  sub (add (add (mul_scalar typing_speed 0.5%Q)
                (mul_scalar backspace_ratio 0.3%Q))
           (mul_scalar touch_pressure 0.3%Q))
      (mul_scalar session_length 0.1%Q).

(** Lines 57-58: the labels, or the exception [np.percentile] raises. *)
Definition label (score : ndarray) : Exn + ndarray :=
  match percentile score 70%Q with
  | inr threshold => inr (greater_than score threshold)
  | inl e => inl e
  end.

(** [generate_training_data(n_samples)], run from the generator state [s0]:
    the pair it returns or the exception it raises, and the generator state
    it leaves.  The casts to float32 of lines 58 and 60 round the values and
    are left out. *)
Definition generate_training_data (n_samples : nat) (s0 : rng_state)
  : (Exn + (list (list Q) * ndarray)) * rng_state :=
  let s := rng_seed 42 in
  let '(typing_speed, s) := rng_normal 5.0%Q 1.5%Q n_samples s in
  let '(backspace_ratio, s) := rng_beta 2%Q 10%Q n_samples s in
  let '(touch_pressure, s) := rng_normal 0.6%Q 0.2%Q n_samples s in
  let '(session_length, s) := rng_exponential 60%Q n_samples s in
  let typing_speed := normalize_typing_speed typing_speed in
  let backspace_ratio := normalize_backspace_ratio backspace_ratio in
  let touch_pressure := normalize_touch_pressure touch_pressure in
  let session_length := normalize_session_length session_length in
  let X := column_stack4 typing_speed backspace_ratio touch_pressure session_length in
  let score := stress_score typing_speed backspace_ratio touch_pressure session_length in
  match label score with
  | inr y => (inr (X, y), s)
  | inl e => (inl e, s)
  end.

(** Lines 67-69: the hold-out split of [train_and_convert]. *)
Definition split_index {A} (X : list A) : Z :=
  py_int (0.8 * inject_Z (Z.of_nat (length X)))%Q.

Definition holdout_split {A B} (X : list A) (y : list B)
  : (list A * list A) * (list B * list B) :=
  let split := split_index X in
  ((slice_to split X, slice_from split X), (slice_to split y, slice_from split y)).

Definition tflite_path : string := "stress_model.tflite".

(** Line 114. *)
Definition test_input : list (list Q) := [[0.5; 0.3; 0.7; -0.2]%Q].

(** [train_and_convert()]. *)
Definition train_and_convert : M string :=
  (print "Generating training data..." ;;
   '(X, y) <- with_np_random (generate_training_data 2000) ;;
   let '((X_train, X_test), (y_train, y_test)) := holdout_split X y in
   print "Creating TensorFlow model..." ;;
   tf_model <- create_stress_model ;;
   print "Training model..." ;;
   '(tf_model, history) <- keras_fit tf_model X_train y_train X_test y_test 50 32 [] ;;
   '(loss, accuracy) <- keras_evaluate tf_model X_test y_test ;;
   print (nl ++ "Test Accuracy: " ++ format_fixed 4 accuracy) ;;
   keras_save tf_model "stress_model.keras" ;;
   print "Saved Keras model to stress_model.keras" ;;
   print (nl ++ "Converting to TFLite...") ;;
   let tflite_model := tflite_convert [DEFAULT] (layers tf_model) (weights tf_model) in
   write_file tflite_path tflite_model ;;
   print ("Saved TFLite model to " ++ tflite_path) ;;
   print ("TFLite model size: "
          ++ format_fixed 2 (inject_Z (Z.of_nat (length tflite_model)) / 1024)%Q ++ " KB") ;;
   print (nl ++ "Testing TFLite model...") ;;
   output <- tflite_run tflite_path test_input ;;
   p <- item00 output ;;
   print ("Sample prediction: " ++ format_fixed 4 p) ;;
   ret tflite_path)%script.

(** The file run as a script: line 7 at import time, then lines 122-123. *)
Definition main : M string :=
  (model <- joblib_load "stress_rf_model.pkl" ;;
   train_and_convert)%script.

End Script.
End ConvertToTflite.

(** ** A small concrete environment

    Instances of the library interfaces on which the scripts can be run:
    a counter-driven generator, a forest that predicts 0 everywhere,
    "weights" that count the optimizer steps taken, and an interpreter that
    answers whatever number is written in the first byte of the model file. *)

Module Toy.

Definition draw (loc scale : Q) (n s : nat) : ndarray * nat :=
  (map (fun i => (loc + scale * (inject_Z (Z.of_nat ((s + 7 * i) mod 13)) - 6) / 4)%Q)
       (seq 0 n),
   (s + n)%nat).

#[export] Instance random : NumpyRandom := {|
  rng_state := nat;
  rng_seed := Z.to_nat;
  rng_normal := draw;
  rng_beta := fun a b => draw (a / (a + b))%Q (1 # 100)%Q;
  rng_exponential := fun scale => draw scale (scale / 7)%Q;
  rng_normal_size := ltac:(intros; unfold draw; cbn [fst]; now rewrite length_map, length_seq);
  rng_beta_size := ltac:(intros; unfold draw; cbn [fst]; now rewrite length_map, length_seq);
  rng_exponential_size := ltac:(intros; unfold draw; cbn [fst]; now rewrite length_map, length_seq)
|}.

#[export] Instance sklearn : Sklearn := {|
  RandomForestClassifier := RandomForestParams;
  sk_permutation := fun _ n => seq 0 n;
  sk_permutation_perm := fun _ n => Permutation_refl (seq 0 n);
  rf_fit := fun params _ _ => params;
  rf_predict := fun _ X => map (fun _ => 0%Q) (seq 0 (df_len X));
  rf_feature_importances := fun _ => [0.25; 0.25; 0.25; 0.25]%Q;
  classification_report := fun _ _ => "report";
  joblib_dumps := fun _ => [Byte.x50; Byte.x4b];
  joblib_loads := fun _ => Some {| n_estimators := 0; random_state := 0; max_depth := None |}
|}.

Definition byte_answer (content : list Byte.byte) : Q :=
  match content with
  | b :: _ => inject_Z (Z.of_N (Byte.to_N b))
  | [] => 0%Q
  end.

#[export] Instance tensorflow : Tensorflow := {|
  tf_state := unit;
  Weights := nat;
  tf_initialize := fun _ s => (0%nat, s);
  tf_shuffle := fun n s => (seq 0 n, s);
  tf_shuffle_perm := fun n _ => Permutation_refl (seq 0 n);
  tf_train_step := fun _ _ w _ _ s => (Datatypes.S w, s);
  tf_evaluate := fun _ _ _ _ _ => (0%Q, 0%Q);
  keras_serialize := fun _ _ _ => [Byte.x4b];
  tflite_convert := fun _ _ _ => [Byte.x02];
  tflite_invoke := fun content _ => [[byte_answer content]]
|}.

#[export] Instance text : PythonText := {|
  format_fixed := fun _ q =>
    nat_to_string (Z.to_nat (Qnum q)) ++ "/" ++ nat_to_string (Pos.to_nat (Qden q))
|}.

(** A machine with an empty disk and nothing printed yet. *)
Definition empty_world : World :=
  {| fs := fun _ => None; stdout := []; np_random := 0%nat; tf_random := tt |}.

End Toy.

(** ** Vocabulary of the properties *)

(** The value of a call that returns; [default] stands in where the call
    raises. *)
Definition returned {A} (default : A) (r : Exn + A) : A :=
  match r with
  | inr a => a
  | inl _ => default
  end.

(** Number of samples that carry label 1. *)
Definition positives (labels : ndarray) : nat :=
  length (filter (fun l => Qeq_bool l 1) labels).

(** Number of elements strictly above [t]. *)
Definition count_above (t : Q) (a : ndarray) : nat :=
  length (filter (Qltb t) a).

(** The four raw columns, in the order both generators draw them after
    seeding with 42. *)
Definition raw_draws {R : NumpyRandom} (n_samples : nat)
  : (ndarray * ndarray) * (ndarray * ndarray) :=
  let s := rng_seed 42 in
  let '(typing_speed, s) := rng_normal 5.0%Q 1.5%Q n_samples s in
  let '(backspace_ratio, s) := rng_beta 2%Q 10%Q n_samples s in
  let '(touch_pressure, s) := rng_normal 0.6%Q 0.2%Q n_samples s in
  let '(session_length, s) := rng_exponential 60%Q n_samples s in
  ((typing_speed, backspace_ratio), (touch_pressure, session_length)).

(** The score arrays the two generators threshold, and the feature matrix of
    the network pipeline, for [n_samples] samples. *)
Definition ensemble_score {R : NumpyRandom} (n_samples : nat) : ndarray :=
  TrainModel.stress_score (fst (fst (raw_draws n_samples))) (snd (fst (raw_draws n_samples)))
                          (fst (snd (raw_draws n_samples))) (snd (snd (raw_draws n_samples))).

Definition network_score {R : NumpyRandom} (n_samples : nat) : ndarray :=
  ConvertToTflite.stress_score
    (ConvertToTflite.normalize_typing_speed (fst (fst (raw_draws n_samples))))
    (ConvertToTflite.normalize_backspace_ratio (snd (fst (raw_draws n_samples))))
    (ConvertToTflite.normalize_touch_pressure (fst (snd (raw_draws n_samples))))
    (ConvertToTflite.normalize_session_length (snd (snd (raw_draws n_samples)))).

Definition network_features {R : NumpyRandom} (n_samples : nat) : list (list Q) :=
  column_stack4
    (ConvertToTflite.normalize_typing_speed (fst (fst (raw_draws n_samples))))
    (ConvertToTflite.normalize_backspace_ratio (snd (fst (raw_draws n_samples))))
    (ConvertToTflite.normalize_touch_pressure (fst (snd (raw_draws n_samples))))
    (ConvertToTflite.normalize_session_length (snd (snd (raw_draws n_samples)))).

(** The score as the specification words it (section 4.2), on the raw
    features of one sample, for weights [w_b] and [w_p]. *)
Definition spec_stress_score (w_b w_p typing_speed backspace_ratio touch_pressure session_length : Q)
  : Q :=
  (0.5 * typing_speed + w_b * backspace_ratio + w_p * touch_pressure - 0.1 * session_length)%Q.

(** The specification's inverse of the normalizer: the affine map that undoes
    [(v - center) / scale]. *)
Definition inverse_affine (center scale v : Q) : Q := (v * scale + center)%Q.

(** The kinds of layers the specification's topology speaks of. *)
Inductive LayerKind : Type := KDense | KNormalize | KDropout.

Definition topology (ls : list Layer) : list LayerKind :=
  flat_map (fun l => match l with
                     | InputLayer _ => []
                     | Dense _ _ => [KDense]
                     | BatchNormalization => [KNormalize]
                     | Dropout _ => [KDropout]
                     end) ls.

Definition is_dense (l : Layer) : bool :=
  match l with Dense _ _ => true | _ => false end.

(** The topology as the specification words it (section 4.5), read with three
    dense layers of which the last is the sigmoid output. *)
Definition spec_topology : list LayerKind :=
  [KDense; KNormalize; KDropout; KDense; KNormalize; KDropout; KDense].

(** Width of the vector that leaves a stack of layers fed with [width] values. *)
Definition output_width (ls : list Layer) (width : nat) : nat :=
  fold_left (fun wd l => match l with
                         | InputLayer k => k
                         | Dense units _ => units
                         | BatchNormalization | Dropout _ => wd
                         end) ls width.

Section TrainingRun.
Context {R : NumpyRandom} {T : Tensorflow}.

(** The data [train_and_convert] generates: what the call of line 64
    returns (the call does return, see [generate_training_data_returns]). *)
Definition training_data : list (list Q) * ndarray :=
  returned ([], []) (fst (ConvertToTflite.generate_training_data 2000 (rng_seed 42))).

(** What [train_and_convert] trains on and validates on. *)
Definition training_set : list (list Q) * ndarray :=
  let '(X, y) := training_data in
  let '((X_train, _), (y_train, _)) := ConvertToTflite.holdout_split X y in
  (X_train, y_train).

Definition validation_set : list (list Q) * ndarray :=
  let '(X, y) := training_data in
  let '((_, X_test), (_, y_test)) := ConvertToTflite.holdout_split X y in
  (X_test, y_test).

(** One epoch of [train_and_convert]: batch size 32 on the training set. *)
Definition epoch_pass : Weights * tf_state -> Weights * tf_state :=
  run_epoch ConvertToTflite.stress_model_layers ConvertToTflite.stress_model_compile
            32 (fst training_set) (snd training_set).

(** Weights and TensorFlow state after [k] epochs from the world [w]. *)
Definition state_after (k : nat) (w : World) : Weights * tf_state :=
  Nat.iter k epoch_pass (tf_initialize ConvertToTflite.stress_model_layers (tf_random w)).

(** The compact model [train_and_convert] writes from the world [w]. *)
Definition compact_model (w : World) : list Byte.byte :=
  tflite_convert [DEFAULT] ConvertToTflite.stress_model_layers (fst (state_after 50 w)).

(** Everything [train_and_convert] has printed, from the world [w], before
    the sample prediction. *)
Definition convert_report {P : PythonText} (w : World) : list string :=
  (stdout w
   ++ ["Generating training data..."; "Creating TensorFlow model..."; "Training model..."]
   ++ map (fun j => epoch_header j 50) (seq 0 50)
   ++ [(nl ++ "Test Accuracy: "
           ++ format_fixed 4
                (snd (tf_evaluate ConvertToTflite.stress_model_layers
                                  ConvertToTflite.stress_model_compile
                                  (fst (state_after 50 w))
                                  (fst validation_set) (snd validation_set))))%string;
       "Saved Keras model to stress_model.keras";
       (nl ++ "Converting to TFLite...")%string;
       ("Saved TFLite model to " ++ ConvertToTflite.tflite_path)%string;
       ("TFLite model size: "
          ++ format_fixed 2 (inject_Z (Z.of_nat (length (compact_model w))) / 1024)%Q
          ++ " KB")%string;
       (nl ++ "Testing TFLite model...")%string])%list.

(** The disk after [train_and_convert] has written its two models. *)
Definition convert_disk (w : World) : string -> option (list Byte.byte) :=
  fun p =>
    if String.eqb p ConvertToTflite.tflite_path then Some (compact_model w)
    else if String.eqb p "stress_model.keras"
         then Some (keras_serialize ConvertToTflite.stress_model_layers
                                    ConvertToTflite.stress_model_compile
                                    (fst (state_after 50 w)))
         else fs w p.

End TrainingRun.

Section EnsembleRun.
Context {R : NumpyRandom} {S : Sklearn}.

(** The frame [train_model] generates (the call of line 60 does return, see
    [generate_synthetic_data_returns]), its feature columns and its labels. *)
Definition ensemble_frame : DataFrame :=
  returned [] (fst (TrainModel.generate_synthetic_data 1000 (rng_seed 42))).

Definition ensemble_features : DataFrame := df_drop "is_stressed" ensemble_frame.

Definition ensemble_labels : ndarray := df_get "is_stressed" ensemble_frame.

(** The rows [train_test_split] sends to the test part and to the train part. *)
Definition ensemble_test_rows : list nat := firstn 200 (sk_permutation 42 1000).

Definition ensemble_train_rows : list nat :=
  firstn 800 (skipn 200 (sk_permutation 42 1000)).

(** The forest [train_model] fits. *)
Definition ensemble_model : RandomForestClassifier :=
  rf_fit {| n_estimators := 100; random_state := 42; max_depth := Some 10%nat |}
         (df_take ensemble_train_rows ensemble_features)
         (take ensemble_train_rows ensemble_labels).

(** Everything [train_model] prints, from the world [w]. *)
Definition ensemble_report {T : Tensorflow} {P : PythonText} (w : World) : list string :=
  let X_test := df_take ensemble_test_rows ensemble_features in
  let y_test := take ensemble_test_rows ensemble_labels in
  let preds := rf_predict ensemble_model X_test in
  (stdout w
   ++ ["Generating synthetic data...";
       "Dataset shape: (1000, 4)";
       "Training model...";
       ("Model Accuracy: " ++ format_fixed 4 (accuracy_score y_test preds))%string;
       (nl ++ "Classification Report:")%string;
       classification_report y_test preds;
       "Model saved to stress_rf_model.pkl";
       (nl ++ "Feature Importances:")%string]
   ++ map (fun p => (fst p ++ ": " ++ format_fixed 4 (snd p))%string)
          (combine ["typing_speed"; "backspace_ratio"; "touch_pressure"; "session_length"]
                   (rf_feature_importances ensemble_model)))%list.

End EnsembleRun.

(** The reading of the verifier in section 4.6: whenever a run completes, the
    sample prediction it reported lies in [0,1]. *)
Definition verifier_asserts_probability : Prop :=
  forall (R : NumpyRandom) (T : Tensorflow) (P : PythonText) (w w' : World) (path : string),
    ConvertToTflite.train_and_convert w = (inr path, w') ->
    exists p rest rows,
      tflite_invoke (compact_model w) ConvertToTflite.test_input = (p :: rest) :: rows /\
      (0 <= p <= 1)%Q.

(** The reading of the entry points in section 6: the compact-network script
    completes on every machine on which its own procedure completes, whether
    or not the ensemble file is there. *)
Definition compact_script_independent : Prop :=
  forall (R : NumpyRandom) (S : Sklearn) (T : Tensorflow) (P : PythonText) (w : World),
    fst (ConvertToTflite.train_and_convert w) = inr ConvertToTflite.tflite_path ->
    fst (ConvertToTflite.main w) = inr ConvertToTflite.tflite_path.

(** The values a float64 array can hold. *)
Definition is_float64 (x : Q) : Prop := (float64 x == x)%Q.

(** What [np.percentile(a, 70)] computes before it looks at the elements: the
    quantile 70 / 100, the virtual index for an array whose last index is
    [m], and the rank it interpolates from in an array of [n] elements, an
    index into the sorted array. *)
Definition quantile70 : Q := float64 (float64 70 / 100).

Definition virtual_index (m : Z) : Q := float64 (float64 (inject_Z m) * quantile70).

Definition percentile_rank (n : nat) : nat :=
  let m := (Z.of_nat n - 1)%Z in
  if Qle_bool (float64 (inject_Z m)) (virtual_index m) then (n - 1)%nat
  else Z.to_nat (Qfloor (virtual_index m)).

(** Scores that leave [np.percentile] far from overflow. *)
Definition within_range (score : ndarray) : Prop :=
  Forall (fun s => Qabs s <= pow2 1022)%Q score.

(** * Properties *)

(** ** Element-wise arithmetic *)

Lemma length_zip_with (f : Q -> Q -> Q) (a b : ndarray) :
  length (zip_with f a b) = Nat.min (length a) (length b).
Proof.
  revert b; induction a as [|x a IH]; intros [|y b]; simpl; auto.
Qed.

Lemma nth_zip_with (f : Q -> Q -> Q) (a b : ndarray) (i : nat) :
  (i < length a)%nat -> (i < length b)%nat ->
  nth i (zip_with f a b) 0%Q = f (nth i a 0%Q) (nth i b 0%Q).
Proof.
  revert b i; induction a as [|x a IH]; intros [|y b] [|i]; simpl; intros; try lia; auto.
  apply IH; lia.
Qed.

Lemma nth_map_scalar (g : Q -> Q) (a : ndarray) (i : nat) :
  (i < length a)%nat -> nth i (map g a) 0%Q = g (nth i a 0%Q).
Proof.
  intros Hi. rewrite (nth_indep _ 0%Q (g 0%Q)) by (now rewrite length_map).
  apply map_nth.
Qed.

Lemma nth_linear_score (c0 c1 c2 c3 : Q) (a0 a1 a2 a3 : ndarray) (n i : nat) :
  length a0 = n -> length a1 = n -> length a2 = n -> length a3 = n -> (i < n)%nat ->
  nth i (sub (add (add (mul_scalar a0 c0) (mul_scalar a1 c1)) (mul_scalar a2 c2))
             (mul_scalar a3 c3)) 0%Q
  = (nth i a0 0 * c0 + nth i a1 0 * c1 + nth i a2 0 * c2 - nth i a3 0 * c3)%Q.
Proof.
  intros H0 H1 H2 H3 Hi. unfold sub, add, mul_scalar.
  rewrite !nth_zip_with; rewrite ?length_zip_with, ?length_map; try lia.
  rewrite !(nth_map_scalar (fun x => _)) by lia. reflexivity.
Qed.

(** ** C1: the score of each pipeline *)

(** C1, as stated, fails.  On the raw sample (0, 0, 0, 100) the ensemble
    pipeline scores -1, where the stated formula gives -10 for every choice of
    w_b and w_p; and on the raw sample (5, 0, 0, 60) the network pipeline,
    which scores the normalized columns, gives -9/10, where the stated formula
    on the raw values gives -7/2. *)
Lemma C1_counterexample :
  ~ (exists w_b w_p : Q,
        Forall2 Qeq (TrainModel.stress_score [0%Q] [0%Q] [0%Q] [100%Q])
                    [spec_stress_score w_b w_p 0 0 0 100])
  /\
  ~ (exists w_b w_p : Q,
        Forall2 Qeq
          (ConvertToTflite.stress_score
             (ConvertToTflite.normalize_typing_speed [5%Q])
             (ConvertToTflite.normalize_backspace_ratio [0%Q])
             (ConvertToTflite.normalize_touch_pressure [0%Q])
             (ConvertToTflite.normalize_session_length [60%Q]))
          [spec_stress_score w_b w_p 5 0 0 60]).
Proof.
  split; intros (w_b & w_p & H);
    unfold TrainModel.stress_score, ConvertToTflite.stress_score,
      ConvertToTflite.normalize_typing_speed, ConvertToTflite.normalize_backspace_ratio,
      ConvertToTflite.normalize_touch_pressure, ConvertToTflite.normalize_session_length,
      sub, add, mul_scalar, div_scalar, sub_scalar in H;
    cbn [zip_with map] in H;
    inversion H as [|? ? ? ? Hq _]; subst; clear H.
  - assert (E : (spec_stress_score w_b w_p 0 0 0 100 == -10)%Q)
      by (unfold spec_stress_score; ring).
    rewrite E in Hq. revert Hq. vm_compute. discriminate.
  - assert (E : (spec_stress_score w_b w_p 5 0 0 60 == -(7 # 2))%Q)
      by (unfold spec_stress_score; ring).
    rewrite E in Hq. revert Hq. vm_compute. discriminate.
Qed.

(** C1 (amended): on columns of one length, sample by sample, the ensemble
    pipeline scores the raw features as
    0.5 ts + 10 br + 3 tp - 0.01 sl, and the network pipeline scores the
    normalized features as 0.5 ts' + 0.3 br' + 0.3 tp' - 0.1 sl' with
    ts' = (ts - 5)/1.5, br' = 5 br, tp' = (tp - 0.6)/0.2, sl' = (sl - 60)/60. *)
Theorem C1_stress_score_per_pipeline
  (typing_speed backspace_ratio touch_pressure session_length : ndarray) (n i : nat) :
  length typing_speed = n -> length backspace_ratio = n ->
  length touch_pressure = n -> length session_length = n -> (i < n)%nat ->
  let ts := nth i typing_speed 0%Q in
  let br := nth i backspace_ratio 0%Q in
  let tp := nth i touch_pressure 0%Q in
  let sl := nth i session_length 0%Q in
  (nth i (TrainModel.stress_score typing_speed backspace_ratio touch_pressure session_length) 0
   == 0.5 * ts + 10 * br + 3 * tp - 0.01 * sl)%Q
  /\
  (nth i (ConvertToTflite.stress_score
            (ConvertToTflite.normalize_typing_speed typing_speed)
            (ConvertToTflite.normalize_backspace_ratio backspace_ratio)
            (ConvertToTflite.normalize_touch_pressure touch_pressure)
            (ConvertToTflite.normalize_session_length session_length)) 0
   == 0.5 * ((ts - 5.0) / 1.5) + 0.3 * (br * 5) + 0.3 * ((tp - 0.6) / 0.2)
      - 0.1 * ((sl - 60) / 60))%Q.
Proof.
  intros H0 H1 H2 H3 Hi ts br tp sl. split.
  - unfold TrainModel.stress_score.
    rewrite (nth_linear_score _ _ _ _ _ _ _ _ n i) by assumption.
    subst ts br tp sl. ring.
  - unfold ConvertToTflite.stress_score.
    rewrite (nth_linear_score _ _ _ _ _ _ _ _ n i);
      try assumption;
      try (unfold ConvertToTflite.normalize_typing_speed,
             ConvertToTflite.normalize_backspace_ratio,
             ConvertToTflite.normalize_touch_pressure,
             ConvertToTflite.normalize_session_length,
             div_scalar, sub_scalar, mul_scalar;
           rewrite ?length_map; assumption).
    unfold ConvertToTflite.normalize_typing_speed,
      ConvertToTflite.normalize_backspace_ratio,
      ConvertToTflite.normalize_touch_pressure,
      ConvertToTflite.normalize_session_length, div_scalar, sub_scalar, mul_scalar.
    rewrite !map_map.
    rewrite !(nth_map_scalar (fun x => _)) by lia.
    subst ts br tp sl. ring.
Qed.

(** The two scores on the second of two concrete samples. *)
Lemma C1_stress_score_per_pipeline_witness :
  (nth 1 (TrainModel.stress_score [4; 6] [0.1; 0.2] [0.5; 0.7] [30; 90]%Q) 0
   == 0.5 * 6 + 10 * 0.2 + 3 * 0.7 - 0.01 * 90)%Q
  /\
  (nth 1 (ConvertToTflite.stress_score
            (ConvertToTflite.normalize_typing_speed [4; 6]%Q)
            (ConvertToTflite.normalize_backspace_ratio [0.1; 0.2]%Q)
            (ConvertToTflite.normalize_touch_pressure [0.5; 0.7]%Q)
            (ConvertToTflite.normalize_session_length [30; 90]%Q)) 0
   == 0.5 * ((6 - 5.0) / 1.5) + 0.3 * (0.2 * 5) + 0.3 * ((0.7 - 0.6) / 0.2)
      - 0.1 * ((90 - 60) / 60))%Q.
Proof.
  apply (C1_stress_score_per_pipeline [4; 6]%Q [0.1; 0.2]%Q [0.5; 0.7]%Q [30; 90]%Q 2 1);
    simpl; lia.
Defined.

(** ** C3: the normalizer and its inverse *)

Lemma map_identity_pointwise (h : Q -> Q) (a : ndarray) :
  (forall v, h v == v)%Q -> Forall2 Qeq (map h a) a.
Proof.
  intros Hh. induction a as [|v a IH]; simpl; constructor; auto.
Qed.

(** C3: each of the four normalizing transforms is undone by its inverse
    affine map: on every raw column, normalizing and then applying
    v * 1.5 + 5, v / 5, v * 0.2 + 0.6 and v * 60 + 60 respectively gives back
    the raw values (equality of rationals). *)
Theorem C3_normalization_round_trip (a : ndarray) :
  Forall2 Qeq (map (inverse_affine 5.0 1.5) (ConvertToTflite.normalize_typing_speed a)) a
  /\ Forall2 Qeq (map (fun v => v / 5)%Q (ConvertToTflite.normalize_backspace_ratio a)) a
  /\ Forall2 Qeq (map (inverse_affine 0.6 0.2) (ConvertToTflite.normalize_touch_pressure a)) a
  /\ Forall2 Qeq (map (inverse_affine 60 60) (ConvertToTflite.normalize_session_length a)) a.
Proof.
  unfold ConvertToTflite.normalize_typing_speed, ConvertToTflite.normalize_backspace_ratio,
    ConvertToTflite.normalize_touch_pressure, ConvertToTflite.normalize_session_length,
    div_scalar, sub_scalar, mul_scalar.
  rewrite !map_map.
  repeat split;
    apply map_identity_pointwise;
    intros v; unfold inverse_affine; field.
Qed.

(** ** C8: the generators do not depend on the state they start from *)

(** C8: both generators seed the global generator themselves, so for one
    sample count they return the same data set (features and labels, and
    leave the same generator state) from any two prior states. *)
Theorem C8_generators_deterministic (R : NumpyRandom) (n_samples : nat) (s1 s2 : rng_state) :
  TrainModel.generate_synthetic_data n_samples s1
  = TrainModel.generate_synthetic_data n_samples s2
  /\ ConvertToTflite.generate_training_data n_samples s1
     = ConvertToTflite.generate_training_data n_samples s2.
Proof.
  split; reflexivity.
Qed.

(** ** C10: the hold-out split of the network pipeline *)

Lemma split_index_eq {A} (X : list A) :
  ConvertToTflite.split_index X = Z.of_nat (4 * length X / 5).
Proof.
  unfold ConvertToTflite.split_index, py_int.
  set (N := length X).
  change (Qnum (0.8 * inject_Z (Z.of_nat N))) with (8 * Z.of_nat N)%Z.
  change (Z.pos (Qden (0.8 * inject_Z (Z.of_nat N)))) with 10%Z.
  rewrite Z.quot_div_nonneg by lia.
  rewrite Nat2Z.inj_div, Nat2Z.inj_mul.
  change (Z.of_nat 4) with 4%Z. change (Z.of_nat 5) with 5%Z.
  replace (8 * Z.of_nat N)%Z with (2 * (4 * Z.of_nat N))%Z by lia.
  change 10%Z with (2 * 5)%Z.
  apply Z.div_mul_cancel_l; lia.
Qed.

Lemma split_index_floor {A} (X : list A) :
  ConvertToTflite.split_index X = Qfloor (0.8 * inject_Z (Z.of_nat (length X))).
Proof.
  unfold ConvertToTflite.split_index, py_int, Qfloor.
  set (N := length X).
  destruct (0.8 * inject_Z (Z.of_nat N))%Q as [num den] eqn:E.
  assert (Hnum : num = (8 * Z.of_nat N)%Z) by (injection E; intros; subst; reflexivity).
  cbn [Qnum Qden]. apply Z.quot_div_nonneg; lia.
Qed.

Lemma holdout_split_eq {A B} (X : list A) (y : list B) :
  ConvertToTflite.holdout_split X y
  = ((firstn (4 * length X / 5) X, skipn (4 * length X / 5) X),
     (firstn (4 * length X / 5) y, skipn (4 * length X / 5) y)).
Proof.
  unfold ConvertToTflite.holdout_split, slice_to, slice_from, slice_index.
  rewrite split_index_eq.
  destruct (Z.of_nat (4 * length X / 5) <? 0)%Z eqn:Hneg; [apply Z.ltb_lt in Hneg; lia|].
  rewrite Nat2Z.id. reflexivity.
Qed.

(** C10: the network trainer cuts the data set in order, without shuffling:
    with k = floor(0.8 * N) (which is 4N/5 rounded down), the training set is
    the first k samples and the validation set is the remaining ones, for the
    features and for the labels alike. *)
Theorem C10_holdout_split_is_prefix {A B} (X : list A) (y : list B) :
  let k := (4 * length X / 5)%nat in
  Z.of_nat k = Qfloor (0.8 * inject_Z (Z.of_nat (length X)))
  /\ ConvertToTflite.holdout_split X y = ((firstn k X, skipn k X), (firstn k y, skipn k y))
  /\ (firstn k X ++ skipn k X)%list = X
  /\ length (firstn k X) = k
  /\ length (skipn k X) = (length X - k)%nat.
Proof.
  intros k.
  assert (Hk : (k <= length X)%nat).
  { subst k. apply Nat.Div0.div_le_upper_bound. lia. }
  split; [rewrite <- split_index_floor; symmetry; apply split_index_eq|].
  split; [apply holdout_split_eq|].
  split; [apply firstn_skipn|].
  split; [rewrite length_firstn; lia | apply length_skipn].
Qed.

(** ** Sorting *)

Lemma insert_perm (x : Q) (l : ndarray) : Permutation (x :: l) (insert x l).
Proof.
  induction l as [|y l IH]; simpl; [constructor; constructor|].
  destruct (Qle_bool x y); [apply Permutation_refl|].
  eapply perm_trans; [apply perm_swap|]. now constructor.
Qed.

Lemma sort_perm (l : ndarray) : Permutation l (sort l).
Proof.
  induction l as [|x l IH]; simpl; [constructor|].
  eapply perm_trans; [|apply insert_perm]. now constructor.
Qed.

Lemma length_sort (l : ndarray) : length (sort l) = length l.
Proof. symmetry. apply Permutation_length, sort_perm. Qed.

Lemma insert_sorted (x : Q) (l : ndarray) :
  StronglySorted Qle l -> StronglySorted Qle (insert x l).
Proof.
  induction 1 as [|y l Hl IH Hy]; simpl.
  - constructor; constructor.
  - destruct (Qle_bool x y) eqn:E.
    + apply Qle_bool_iff in E. constructor.
      * now constructor.
      * constructor; [exact E|].
        eapply Forall_impl; [|exact Hy]. intros z Hz. lra.
    + assert (Hyx : (y <= x)%Q).
      { destruct (Qlt_le_dec y x) as [Hlt|Hle]; [lra|].
        apply Qle_bool_iff in Hle. congruence. }
      constructor; [exact IH|].
      eapply Permutation_Forall; [apply insert_perm|].
      constructor; assumption.
Qed.

Lemma sort_sorted (l : ndarray) : StronglySorted Qle (sort l).
Proof.
  induction l as [|x l IH]; simpl; [constructor | now apply insert_sorted].
Qed.

Lemma sorted_nth_le (s : ndarray) (i j : nat) :
  StronglySorted Qle s -> (i <= j)%nat -> (j < length s)%nat ->
  (nth i s 0 <= nth j s 0)%Q.
Proof.
  intros Hs. revert i j. induction Hs as [|x s Hs IH Hx]; intros i j Hij Hj.
  - simpl in Hj; lia.
  - destruct i as [|i], j as [|j]; simpl in *; try lia.
    + lra.
    + rewrite Forall_forall in Hx. apply Hx, nth_In. lia.
    + apply IH; lia.
Qed.

(** ** Counting the elements above a threshold *)

Lemma count_above_perm (t : Q) (l l' : ndarray) :
  Permutation l l' -> count_above t l = count_above t l'.
Proof.
  unfold count_above.
  induction 1 as [| x l l' _ IH | x y l | l l' l'' _ IH1 _ IH2]; simpl.
  - reflexivity.
  - destruct (Qltb t x); simpl; lia.
  - destruct (Qltb t x), (Qltb t y); simpl; lia.
  - lia.
Qed.

Lemma count_above_app (t : Q) (l l' : ndarray) :
  count_above t (l ++ l')%list = (count_above t l + count_above t l')%nat.
Proof. unfold count_above. now rewrite filter_app, length_app. Qed.

Lemma count_above_le_length (t : Q) (l : ndarray) : (count_above t l <= length l)%nat.
Proof. apply filter_length_le. Qed.

Lemma Qltb_lt (x y : Q) : Qltb x y = true <-> (x < y)%Q.
Proof.
  unfold Qltb. rewrite negb_true_iff. split.
  - intros H. destruct (Qlt_le_dec x y) as [Hlt|Hle]; [exact Hlt|].
    apply Qle_bool_iff in Hle. congruence.
  - intros H. destruct (Qle_bool y x) eqn:E; [|reflexivity].
    apply Qle_bool_iff in E. lra.
Qed.

Lemma count_above_none (t : Q) (l : ndarray) :
  Forall (fun x => x <= t)%Q l -> count_above t l = 0%nat.
Proof.
  unfold count_above. induction 1 as [|x l Hx _ IH]; simpl; [reflexivity|].
  destruct (Qltb t x) eqn:E; [apply Qltb_lt in E; lra | exact IH].
Qed.

Lemma count_above_all (t : Q) (l : ndarray) :
  Forall (fun x => t < x)%Q l -> count_above t l = length l.
Proof.
  unfold count_above. induction 1 as [|x l Hx _ IH]; simpl; [reflexivity|].
  apply Qltb_lt in Hx. rewrite Hx. simpl. now rewrite IH.
Qed.

Lemma sorted_prefix_below (s : ndarray) (k : nat) (t : Q) :
  StronglySorted Qle s -> (k < length s)%nat -> (nth k s 0 <= t)%Q ->
  Forall (fun x => x <= t)%Q (firstn (S k) s).
Proof.
  intros Hs Hk Ht. apply Forall_nth. intros i d Hi.
  rewrite length_firstn in Hi.
  rewrite (nth_indep _ d 0%Q) by (rewrite length_firstn; lia).
  rewrite nth_firstn.
  destruct (i <? S k)%nat eqn:E; [|apply Nat.ltb_ge in E; lia].
  apply Nat.ltb_lt in E.
  apply Qle_trans with (nth k s 0%Q); [|exact Ht].
  apply sorted_nth_le; [assumption | lia | lia].
Qed.

Lemma sorted_suffix_above (s : ndarray) (k : nat) (t : Q) :
  StronglySorted Qle s -> (t < nth (S k) s 0)%Q ->
  Forall (fun x => t < x)%Q (skipn (S k) s).
Proof.
  intros Hs Ht. apply Forall_nth. intros i d Hi.
  rewrite length_skipn in Hi.
  rewrite (nth_indep _ d 0%Q) by (rewrite length_skipn; lia).
  rewrite nth_skipn.
  apply Qlt_le_trans with (nth (S k) s 0%Q); [exact Ht|].
  apply sorted_nth_le; [assumption | lia | lia].
Qed.

Lemma count_above_sorted_le (s : ndarray) (k : nat) (t : Q) :
  StronglySorted Qle s -> (k < length s)%nat -> (nth k s 0 <= t)%Q ->
  (count_above t s <= length s - 1 - k)%nat.
Proof.
  intros Hs Hk Ht.
  rewrite <- (firstn_skipn (S k) s) at 1. rewrite count_above_app.
  rewrite (count_above_none t (firstn (S k) s)) by now apply sorted_prefix_below.
  pose proof (count_above_le_length t (skipn (S k) s)) as H.
  rewrite length_skipn in H. lia.
Qed.

Lemma count_above_sorted_eq (s : ndarray) (k : nat) (t : Q) :
  StronglySorted Qle s -> (k < length s)%nat ->
  (nth k s 0 <= t)%Q -> (t < nth (S k) s 0)%Q ->
  count_above t s = (length s - 1 - k)%nat.
Proof.
  intros Hs Hk Hlo Hhi.
  rewrite <- (firstn_skipn (S k) s) at 1. rewrite count_above_app.
  rewrite (count_above_none t (firstn (S k) s)) by now apply sorted_prefix_below.
  rewrite (count_above_all t (skipn (S k) s)) by now apply sorted_suffix_above.
  rewrite length_skipn. lia.
Qed.

(** ** Rounding to binary64 *)

(** Powers of two. *)
Lemma pow2_pos (e : Z) : 0 < pow2 e.
Proof. apply Qpower_0_lt. reflexivity. Qed.

Lemma pow2_add (a b : Z) : pow2 (a + b) == pow2 a * pow2 b.
Proof. apply Qpower_plus. discriminate. Qed.

Lemma pow2_le (a b : Z) : (a <= b)%Z -> pow2 a <= pow2 b.
Proof. intros H. apply Qpower_le_compat_l; [exact H | discriminate]. Qed.

Lemma pow2_lt (a b : Z) : (a < b)%Z -> pow2 a < pow2 b.
Proof. intros H. apply Qpower_lt_compat_l; [exact H | reflexivity]. Qed.

Lemma pow2_lt_inv (a b : Z) : pow2 a < pow2 b -> (a < b)%Z.
Proof. intros H. apply (Qpower_lt_compat_l_inv 2); [exact H | reflexivity]. Qed.

Lemma pow2_Z (e : Z) : (0 <= e)%Z -> pow2 e == inject_Z (2 ^ e).
Proof. intros H. unfold pow2. now rewrite Zpower_Qpower. Qed.

Lemma pow2_succ (e : Z) : pow2 (e + 1) == 2 * pow2 e.
Proof. rewrite pow2_add. change (pow2 1) with 2. ring. Qed.

Lemma pow2_0 : pow2 0 == 1.
Proof. reflexivity. Qed.

(** The binary logarithm. *)
Lemma ilog2_spec (x : Q) : 0 < x -> pow2 (ilog2 x) <= x /\ x < pow2 (ilog2 x + 1).
Proof.
  intros Hx. destruct x as [n d]. unfold ilog2. cbn [Qnum Qden].
  assert (Hn : (0 < n)%Z) by (unfold Qlt in Hx; simpl in Hx; lia).
  set (a := Z.log2 n). set (b := Z.log2 (Z.pos d)).
  destruct (Z.log2_spec n Hn) as [Ha1 Ha2]. fold a in Ha1, Ha2.
  destruct (Z.log2_spec (Z.pos d) (Pos2Z.is_pos d)) as [Hb1 Hb2]. fold b in Hb1, Hb2.
  assert (Ha0 : (0 <= a)%Z) by apply Z.log2_nonneg.
  assert (Hb0 : (0 <= b)%Z) by apply Z.log2_nonneg.
  set (x := n # d) in *.
  assert (HxD : x * inject_Z (Z.pos d) == inject_Z n).
  { unfold x. rewrite (Qmake_Qdiv n d). field. discriminate. }
  assert (HA : pow2 a == inject_Z (2 ^ a)) by (apply pow2_Z; exact Ha0).
  assert (HB : pow2 b == inject_Z (2 ^ b)) by (apply pow2_Z; exact Hb0).
  assert (HP : pow2 (a - b) * pow2 b == pow2 a).
  { rewrite <- pow2_add. replace (a - b + b)%Z with a by lia. reflexivity. }
  assert (HBpos := pow2_pos b). assert (HPpos := pow2_pos (a - b)).
  assert (HDpos : 0 < inject_Z (Z.pos d)) by reflexivity.
  assert (N1 : pow2 a <= inject_Z n) by (rewrite HA, <- Zle_Qle; exact Ha1).
  assert (N2 : inject_Z n < 2 * pow2 a).
  { rewrite HA. change 2 with (inject_Z 2). rewrite <- inject_Z_mult, <- Zlt_Qlt.
    replace (Z.succ a) with (a + 1)%Z in Ha2 by lia.
    rewrite Z.pow_add_r in Ha2 by lia. simpl in Ha2. lia. }
  assert (D1 : pow2 b <= inject_Z (Z.pos d)) by (rewrite HB, <- Zle_Qle; exact Hb1).
  assert (D2 : inject_Z (Z.pos d) < 2 * pow2 b).
  { rewrite HB. change 2 with (inject_Z 2). rewrite <- inject_Z_mult, <- Zlt_Qlt.
    replace (Z.succ b) with (b + 1)%Z in Hb2 by lia.
    rewrite Z.pow_add_r in Hb2 by lia. simpl in Hb2. lia. }
  set (P := pow2 (a - b)) in *. set (B := pow2 b) in *. set (A := pow2 a) in *.
  set (D := inject_Z (Z.pos d)) in *. set (N := inject_Z n) in *.
  assert (Hup : x < 2 * P).
  { destruct (Qlt_le_dec x (2 * P)) as [H|H]; [exact H|exfalso].
    assert (2 * P * B <= x * D).
    { apply Qle_trans with (2 * P * D).
      - apply Qmult_le_l; [lra|exact D1].
      - apply Qmult_le_r; [exact HDpos|exact H]. }
    lra. }
  assert (Hlo : P < 2 * x).
  { destruct (Qlt_le_dec P (2 * x)) as [H|H]; [exact H|exfalso].
    assert (2 * x * D <= P * D) by (apply Qmult_le_r; [exact HDpos|exact H]).
    assert (P * D < P * (2 * B)) by (apply Qmult_lt_l; [exact HPpos|exact D2]).
    lra. }
  destruct (Qle_bool P x) eqn:E.
  - apply Qle_bool_iff in E. split; [exact E|].
    rewrite pow2_succ. exact Hup.
  - assert (x < P).
    { destruct (Qlt_le_dec x P) as [H|H]; [exact H|].
      apply Qle_bool_iff in H. congruence. }
    replace (a - b - 1 + 1)%Z with (a - b)%Z by lia. fold P. split; [|assumption].
    assert (Hh : pow2 (a - b - 1 + 1) == 2 * pow2 (a - b - 1)) by apply pow2_succ.
    replace (a - b - 1 + 1)%Z with (a - b)%Z in Hh by lia. fold P in Hh. lra.
Qed.

Lemma ilog2_unique (x : Q) (l : Z) : pow2 l <= x -> x < pow2 (l + 1) -> ilog2 x = l.
Proof.
  intros H1 H2.
  assert (Hx : 0 < x) by (pose proof (pow2_pos l); lra).
  destruct (ilog2_spec x Hx) as [S1 S2].
  assert (ilog2 x < l + 1)%Z by (apply pow2_lt_inv; lra).
  assert (l < ilog2 x + 1)%Z by (apply pow2_lt_inv; lra).
  lia.
Qed.

Lemma ilog2_comp (x y : Q) : 0 < x -> x == y -> ilog2 x = ilog2 y.
Proof.
  intros Hx E. destruct (ilog2_spec x Hx) as [S1 S2].
  symmetry. apply ilog2_unique; rewrite <- E; assumption.
Qed.

Lemma ilog2_mono (x y : Q) : 0 < x -> x <= y -> (ilog2 x <= ilog2 y)%Z.
Proof.
  intros Hx Hxy.
  destruct (ilog2_spec x Hx) as [S1 _].
  destruct (ilog2_spec y ltac:(lra)) as [_ T2].
  assert (ilog2 x < ilog2 y + 1)%Z by (apply pow2_lt_inv; lra).
  lia.
Qed.

(** Rounding to the nearest integer, ties to even. *)
Lemma round_half_even_comp (x y : Q) : x == y -> round_half_even x = round_half_even y.
Proof.
  intros E. unfold round_half_even. rewrite (Qfloor_comp x y E).
  assert (E' : x - inject_Z (Qfloor y) == y - inject_Z (Qfloor y)) by (rewrite E; reflexivity).
  rewrite (Qcompare_comp _ _ E' (1 # 2) (1 # 2) (Qeq_refl _)). reflexivity.
Qed.

Lemma round_half_even_Z (z : Z) : round_half_even (inject_Z z) = z.
Proof.
  unfold round_half_even. rewrite Qfloor_Z.
  assert (E : inject_Z z - inject_Z z == 0) by ring.
  rewrite (Qcompare_comp _ _ E (1 # 2) (1 # 2) (Qeq_refl _)). reflexivity.
Qed.

Lemma round_half_even_bounds (x : Q) :
  (Qfloor x <= round_half_even x <= Qfloor x + 1)%Z.
Proof.
  unfold round_half_even.
  destruct (Qcompare (x - inject_Z (Qfloor x)) (1 # 2)); try lia.
  destruct (Z.even (Qfloor x)); lia.
Qed.

Lemma round_half_even_mono (x y : Q) : x <= y -> (round_half_even x <= round_half_even y)%Z.
Proof.
  intros Hxy.
  pose proof (Qfloor_resp_le x y Hxy) as Hf.
  destruct (Z.eq_dec (Qfloor x) (Qfloor y)) as [E|E].
  - unfold round_half_even. rewrite E.
    destruct (Qcompare_spec (x - inject_Z (Qfloor y)) (1 # 2)) as [C1|C1|C1];
      destruct (Qcompare_spec (y - inject_Z (Qfloor y)) (1 # 2)) as [C2|C2|C2];
      try destruct (Z.even (Qfloor y)); try lia; exfalso; lra.
  - pose proof (round_half_even_bounds x). pose proof (round_half_even_bounds y). lia.
Qed.

(** Rounding a positive rational. *)

Lemma float64_pos_eq (x : Q) :
  float64_pos x = inject_Z (round_half_even (x / pow2 (exponent x))) * pow2 (exponent x).
Proof. reflexivity. Qed.

Lemma scaled_lt (x : Q) : 0 < x -> x / pow2 (exponent x) < pow2 53.
Proof.
  intros Hx. destruct (ilog2_spec x Hx) as [_ S2].
  assert (He : (ilog2 x + 1 <= exponent x + 53)%Z) by (unfold exponent; lia).
  pose proof (pow2_le _ _ He) as H. rewrite (pow2_add (exponent x) 53) in H.
  apply Qlt_shift_div_r; [apply pow2_pos|]. rewrite (Qmult_comm (pow2 53)). lra.
Qed.

Lemma scaled_ge (x : Q) :
  0 < x -> (-1074 < exponent x)%Z -> pow2 52 <= x / pow2 (exponent x).
Proof.
  intros Hx He. destruct (ilog2_spec x Hx) as [S1 _].
  assert (E : ilog2 x = (exponent x + 52)%Z) by (unfold exponent in *; lia).
  rewrite E, pow2_add in S1.
  apply Qle_shift_div_l; [apply pow2_pos|]. rewrite (Qmult_comm (pow2 52)). exact S1.
Qed.

Lemma scaled_pos (x : Q) : 0 < x -> 0 < x / pow2 (exponent x).
Proof.
  intros Hx. apply Qlt_shift_div_l; [apply pow2_pos|]. lra.
Qed.

Lemma pow2_53 : pow2 53 == inject_Z (2 ^ 53).
Proof. apply pow2_Z. lia. Qed.

Lemma pow2_52 : pow2 52 == inject_Z (2 ^ 52).
Proof. apply pow2_Z. lia. Qed.

Lemma mantissa_bounds (x : Q) :
  0 < x -> (0 <= round_half_even (x / pow2 (exponent x)) <= 2 ^ 53)%Z.
Proof.
  intros Hx. split.
  - pose proof (round_half_even_bounds (x / pow2 (exponent x))) as [H _].
    pose proof (Qfloor_resp_le 0 _ (Qlt_le_weak _ _ (scaled_pos x Hx))) as H0.
    change (Qfloor 0) with 0%Z in H0. lia.
  - rewrite <- (round_half_even_Z (2 ^ 53)). apply round_half_even_mono.
    rewrite <- pow2_53. apply Qlt_le_weak, scaled_lt, Hx.
Qed.

Lemma mantissa_normal (x : Q) :
  0 < x -> (-1074 < exponent x)%Z ->
  (2 ^ 52 <= round_half_even (x / pow2 (exponent x)))%Z.
Proof.
  intros Hx He. rewrite <- (round_half_even_Z (2 ^ 52)). apply round_half_even_mono.
  rewrite <- pow2_52. apply scaled_ge; assumption.
Qed.

Lemma float64_pos_nonneg (x : Q) : 0 < x -> 0 <= float64_pos x.
Proof.
  intros Hx. rewrite float64_pos_eq.
  apply Qmult_le_0_compat; [|apply Qlt_le_weak, pow2_pos].
  change 0 with (inject_Z 0). rewrite <- Zle_Qle. apply mantissa_bounds, Hx.
Qed.

Lemma exponent_comp (x y : Q) : 0 < x -> x == y -> exponent x = exponent y.
Proof. intros Hx E. unfold exponent. now rewrite (ilog2_comp x y Hx E). Qed.

Lemma float64_pos_comp (x y : Q) : 0 < x -> x == y -> float64_pos x == float64_pos y.
Proof.
  intros Hx E. rewrite !float64_pos_eq. rewrite (exponent_comp x y Hx E).
  rewrite (round_half_even_comp (x / pow2 (exponent y)) (y / pow2 (exponent y))).
  - reflexivity.
  - now rewrite E.
Qed.

Lemma float64_pos_mono (x y : Q) : 0 < x -> x <= y -> float64_pos x <= float64_pos y.
Proof.
  intros Hx Hxy. assert (Hy : 0 < y) by lra.
  assert (He : (exponent x <= exponent y)%Z).
  { unfold exponent. pose proof (ilog2_mono x y Hx Hxy). lia. }
  rewrite !float64_pos_eq.
  destruct (Z.eq_dec (exponent x) (exponent y)) as [E|E].
  - rewrite E. apply Qmult_le_r; [apply pow2_pos|].
    rewrite <- Zle_Qle. apply round_half_even_mono.
    apply Qmult_le_r; [apply Qinv_lt_0_compat, pow2_pos | exact Hxy].
  - assert (Hn : (-1074 < exponent y)%Z) by (unfold exponent in *; lia).
    apply Qle_trans with (pow2 (exponent x + 53)).
    + rewrite pow2_add, (Qmult_comm (pow2 (exponent x))).
      apply Qmult_le_r; [apply pow2_pos|].
      rewrite pow2_53, <- Zle_Qle. apply mantissa_bounds, Hx.
    + apply Qle_trans with (pow2 (exponent y + 52)); [apply pow2_le; lia|].
      rewrite pow2_add, (Qmult_comm (pow2 (exponent y))).
      apply Qmult_le_r; [apply pow2_pos|].
      rewrite pow2_52, <- Zle_Qle. apply mantissa_normal; assumption.
Qed.

(** Rounding: sign, compatibility with equality of rationals, monotonicity. *)
Lemma float64_of_pos (x : Q) : 0 < x -> float64 x = float64_pos x.
Proof.
  intros H. unfold float64. destruct (Qcompare_spec x 0); [lra | lra | reflexivity].
Qed.

Lemma float64_of_neg (x : Q) : x < 0 -> float64 x = - float64_pos (- x).
Proof.
  intros H. unfold float64. destruct (Qcompare_spec x 0); [lra | reflexivity | lra].
Qed.

Lemma float64_of_zero (x : Q) : x == 0 -> float64 x = 0.
Proof.
  intros H. unfold float64. destruct (Qcompare_spec x 0); [reflexivity | lra | lra].
Qed.

Lemma float64_comp (x y : Q) : x == y -> float64 x == float64 y.
Proof.
  intros E. destruct (Qcompare_spec x 0) as [H|H|H].
  - rewrite (float64_of_zero x H), (float64_of_zero y) by (rewrite <- E; exact H). reflexivity.
  - rewrite (float64_of_neg x H), (float64_of_neg y) by (rewrite <- E; exact H).
    rewrite (float64_pos_comp (- x) (- y)); [reflexivity | lra | now rewrite E].
  - rewrite (float64_of_pos x H), (float64_of_pos y) by (rewrite <- E; exact H).
    apply float64_pos_comp; assumption.
Qed.

Lemma float64_opp (x : Q) : float64 (- x) == - float64 x.
Proof.
  destruct (Qcompare_spec x 0) as [H|H|H].
  - rewrite (float64_of_zero x H), (float64_of_zero (- x)) by lra. reflexivity.
  - rewrite (float64_of_neg x H), (float64_of_pos (- x)) by lra. ring.
  - rewrite (float64_of_pos x H), (float64_of_neg (- x)) by lra.
    rewrite (float64_pos_comp (- - x) x); [reflexivity | lra | ring].
Qed.

Lemma float64_nonneg (x : Q) : 0 <= x -> 0 <= float64 x.
Proof.
  intros H. destruct (Qcompare_spec x 0) as [H0|H0|H0].
  - rewrite (float64_of_zero x H0). lra.
  - lra.
  - rewrite (float64_of_pos x H0). apply float64_pos_nonneg, H0.
Qed.

Lemma float64_nonpos (x : Q) : x <= 0 -> float64 x <= 0.
Proof.
  intros H. assert (H' : 0 <= float64 (- x)) by (apply float64_nonneg; lra).
  rewrite float64_opp in H'. lra.
Qed.

Lemma float64_mono (x y : Q) : x <= y -> float64 x <= float64 y.
Proof.
  intros Hxy. destruct (Qlt_le_dec 0 x) as [Hx|Hx].
  - rewrite (float64_of_pos x Hx), (float64_of_pos y) by lra.
    apply float64_pos_mono; assumption.
  - destruct (Qlt_le_dec y 0) as [Hy|Hy].
    + assert (H : float64 (- y) <= float64 (- x)).
      { rewrite (float64_of_pos (- y)), (float64_of_pos (- x)) by lra.
        apply float64_pos_mono; lra. }
      rewrite !float64_opp in H. lra.
    + pose proof (float64_nonpos x Hx). pose proof (float64_nonneg y Hy). lra.
Qed.

(** Values that rounding leaves alone. *)
Lemma pow2_nonzero (e : Z) : ~ pow2 e == 0.
Proof. pose proof (pow2_pos e). lra. Qed.

Lemma pow2_split (e e' : Z) : pow2 e == pow2 (e - e') * pow2 e'.
Proof. rewrite <- pow2_add. replace (e - e' + e')%Z with e by lia. reflexivity. Qed.

Lemma ilog2_scaled (z e : Z) :
  (0 < z)%Z -> ilog2 (inject_Z z * pow2 e) = (Z.log2 z + e)%Z.
Proof.
  intros Hz. destruct (Z.log2_spec z Hz) as [L1 L2].
  pose proof (Z.log2_nonneg z) as L0.
  apply ilog2_unique.
  - rewrite pow2_add. apply Qmult_le_r; [apply pow2_pos|].
    rewrite pow2_Z by lia. rewrite <- Zle_Qle. exact L1.
  - replace (Z.log2 z + e + 1)%Z with (Z.succ (Z.log2 z) + e)%Z by lia.
    rewrite pow2_add. apply Qmult_lt_r; [apply pow2_pos|].
    rewrite pow2_Z by lia. rewrite <- Zlt_Qlt. exact L2.
Qed.

Lemma float64_pos_exact (z e : Z) :
  (0 < z < 2 ^ 53)%Z -> (-1074 <= e)%Z ->
  float64_pos (inject_Z z * pow2 e) == inject_Z z * pow2 e.
Proof.
  intros Hz He. rewrite float64_pos_eq.
  assert (Hl : (Z.log2 z < 53)%Z) by (apply Z.log2_lt_pow2; lia).
  assert (Ee : exponent (inject_Z z * pow2 e) = Z.max (-1074) (Z.log2 z + e - 52)).
  { unfold exponent. rewrite ilog2_scaled by lia. reflexivity. }
  rewrite Ee. set (e' := Z.max (-1074) (Z.log2 z + e - 52)).
  assert (Hle : (e' <= e)%Z) by (unfold e'; lia).
  assert (Hs : inject_Z z * pow2 e / pow2 e' == inject_Z (z * 2 ^ (e - e'))).
  { rewrite inject_Z_mult, <- pow2_Z by lia. rewrite (pow2_split e e').
    field. apply pow2_nonzero. }
  rewrite (round_half_even_comp _ _ Hs), round_half_even_Z.
  rewrite inject_Z_mult, <- pow2_Z by lia. rewrite (pow2_split e e'). ring.
Qed.

Lemma float64_exact (z e : Z) :
  (Z.abs z < 2 ^ 53)%Z -> (-1074 <= e)%Z ->
  float64 (inject_Z z * pow2 e) == inject_Z z * pow2 e.
Proof.
  intros Hz He. destruct (Z.lt_trichotomy z 0) as [H|[H|H]].
  - assert (E : inject_Z z * pow2 e == - (inject_Z (- z) * pow2 e))
      by (rewrite inject_Z_opp; ring).
    rewrite (float64_comp _ _ E), float64_opp.
    assert (P : 0 < inject_Z (- z) * pow2 e).
    { apply Qmult_lt_0_compat; [|apply pow2_pos].
      change 0 with (inject_Z 0). rewrite <- Zlt_Qlt. lia. }
    rewrite (float64_of_pos _ P), float64_pos_exact by lia.
    rewrite inject_Z_opp. ring.
  - subst z. rewrite float64_of_zero; ring.
  - assert (P : 0 < inject_Z z * pow2 e).
    { apply Qmult_lt_0_compat; [|apply pow2_pos].
      change 0 with (inject_Z 0). rewrite <- Zlt_Qlt. lia. }
    rewrite (float64_of_pos _ P). apply float64_pos_exact; lia.
Qed.

Lemma float64_pow2 (e : Z) : (-1074 <= e)%Z -> float64 (pow2 e) == pow2 e.
Proof.
  intros He. assert (E : pow2 e == inject_Z 1 * pow2 e) by (change (inject_Z 1) with 1; ring).
  rewrite (float64_comp _ _ E), float64_exact by (try lia; reflexivity).
  symmetry. exact E.
Qed.

Lemma float64_Z (z : Z) : (Z.abs z <= 2 ^ 53)%Z -> float64 (inject_Z z) == inject_Z z.
Proof.
  intros Hz. destruct (Z.eq_dec (Z.abs z) (2 ^ 53)) as [E|E].
  - assert (Ez : inject_Z z == inject_Z (z / 2) * pow2 1).
    { assert (Hc : (z = 2 ^ 53 \/ z = - 2 ^ 53)%Z) by lia.
      destruct Hc; subst z; vm_compute; reflexivity. }
    assert (Hh : (Z.abs (z / 2) < 2 ^ 53)%Z).
    { assert (Hc : (z = 2 ^ 53 \/ z = - 2 ^ 53)%Z) by lia.
      destruct Hc; subst z; vm_compute; reflexivity. }
    rewrite (float64_comp _ _ Ez), float64_exact by (exact Hh || lia). symmetry. exact Ez.
  - assert (Ez : inject_Z z == inject_Z z * pow2 0) by (rewrite pow2_0; ring).
    rewrite (float64_comp _ _ Ez), float64_exact by lia. symmetry. exact Ez.
Qed.

Lemma float64_0 : float64 0 = 0.
Proof. reflexivity. Qed.

(** Every rounded value is a 53-bit integer times a power of two. *)
Lemma float64_shape (x : Q) :
  exists (m e : Z), (Z.abs m <= 2 ^ 53)%Z /\ (-1074 <= e)%Z
                    /\ float64 x == inject_Z m * pow2 e.
Proof.
  destruct (Qcompare_spec x 0) as [H|H|H].
  - exists 0%Z, 0%Z. repeat split; try lia. rewrite (float64_of_zero x H). ring.
  - assert (P : 0 < - x) by lra.
    exists (- round_half_even (- x / pow2 (exponent (- x))))%Z, (exponent (- x)).
    pose proof (mantissa_bounds (- x) P).
    repeat split; [lia | unfold exponent; lia |].
    rewrite (float64_of_neg x H), float64_pos_eq, inject_Z_opp. ring.
  - exists (round_half_even (x / pow2 (exponent x))), (exponent x).
    pose proof (mantissa_bounds x H).
    repeat split; [lia | unfold exponent; lia |].
    rewrite (float64_of_pos x H), float64_pos_eq. reflexivity.
Qed.

Lemma float64_idem (x : Q) : float64 (float64 x) == float64 x.
Proof.
  destruct (float64_shape x) as (m & e & Hm & He & E).
  rewrite (float64_comp _ _ E), E. destruct (Z.eq_dec (Z.abs m) (2 ^ 53)) as [Em|Em].
  - assert (Hc : (m = 2 ^ 53 \/ m = - 2 ^ 53)%Z) by lia.
    assert (Ez : inject_Z m * pow2 e == inject_Z (m / 2) * pow2 (e + 1)).
    { rewrite pow2_succ.
      assert (E2 : inject_Z m == inject_Z (m / 2) * 2)
        by (destruct Hc; subst m; vm_compute; reflexivity).
      rewrite E2. ring. }
    rewrite (float64_comp _ _ Ez), Ez. apply float64_exact; [|lia].
    destruct Hc; subst m; vm_compute; reflexivity.
  - apply float64_exact; lia.
Qed.

(** Every rounded value is a multiple of the smallest subnormal. *)
Lemma float64_grid (x : Q) : exists k : Z, float64 x == inject_Z k * pow2 (-1074).
Proof.
  destruct (float64_shape x) as (m & e & Hm & He & E).
  exists (m * 2 ^ (e + 1074))%Z. rewrite E, inject_Z_mult, <- pow2_Z by lia.
  rewrite (pow2_split e (-1074)). replace (e - -1074)%Z with (e + 1074)%Z by lia. ring.
Qed.

(** ** Interpolation in binary64 *)

Lemma is_float64_float64 (x : Q) : is_float64 (float64 x).
Proof. apply float64_idem. Qed.

Lemma float64_half : float64 (1 # 2) == 1 # 2.
Proof. vm_compute. reflexivity. Qed.

Lemma float64_one : float64 1 == 1.
Proof. vm_compute. reflexivity. Qed.

Lemma float64_ge (a x : Q) : is_float64 a -> a <= x -> a <= float64 x.
Proof.
  unfold is_float64. intros Ha H.
  apply Qle_trans with (float64 a); [rewrite Ha; apply Qle_refl | apply float64_mono, H].
Qed.

Lemma float64_le (b x : Q) : is_float64 b -> x <= b -> float64 x <= b.
Proof.
  unfold is_float64. intros Hb H.
  apply Qle_trans with (float64 b); [apply float64_mono, H | rewrite Hb; apply Qle_refl].
Qed.

Lemma float64_grid_gap (a b : Q) :
  is_float64 a -> is_float64 b -> a < b -> pow2 (-1074) <= b - a.
Proof.
  unfold is_float64. intros Ha Hb Hab.
  destruct (float64_grid a) as [ka Ea], (float64_grid b) as [kb Eb].
  rewrite Ha in Ea. rewrite Hb in Eb.
  assert (Hk : (ka < kb)%Z).
  { destruct (Z_lt_le_dec ka kb) as [H|H]; [exact H|exfalso].
    rewrite Zle_Qle in H. pose proof (pow2_pos (-1074)) as Hp.
    assert (inject_Z kb * pow2 (-1074) <= inject_Z ka * pow2 (-1074))
      by (apply Qmult_le_r; assumption).
    lra. }
  assert (Hk' : inject_Z 1 <= inject_Z kb - inject_Z ka).
  { unfold Qminus. rewrite <- inject_Z_opp, <- inject_Z_plus, <- Zle_Qle. lia. }
  change (inject_Z 1) with 1 in Hk'.
  rewrite Ea, Eb. pose proof (pow2_pos (-1074)) as Hp.
  assert (E : inject_Z kb * pow2 (-1074) - inject_Z ka * pow2 (-1074)
              == (inject_Z kb - inject_Z ka) * pow2 (-1074)) by ring.
  rewrite E.
  assert (1 * pow2 (-1074) <= (inject_Z kb - inject_Z ka) * pow2 (-1074))
    by (apply Qmult_le_r; assumption).
  lra.
Qed.

(** Rounding the difference up never makes the interpolation overshoot. *)
Lemma scaled_difference_le (c h : Q) :
  pow2 (-1074) <= c -> 0 <= h -> h <= 1 # 2 ->
  0 <= float64 (float64 c * h) <= c.
Proof.
  intros Hc Hh0 Hh.
  assert (Hc0 : 0 < c) by (pose proof (pow2_pos (-1074)); lra).
  destruct (ilog2_spec c Hc0) as [S1 S2].
  set (p := ilog2 c) in *.
  assert (Hp : (-1074 <= p)%Z).
  { assert (pow2 (-1074) < pow2 (p + 1)) by lra.
    apply pow2_lt_inv in H. lia. }
  assert (Hd0 : 0 <= float64 c) by (apply float64_nonneg; lra).
  assert (Hd : float64 c <= pow2 (p + 1)).
  { rewrite <- (float64_pow2 (p + 1)) by lia. apply float64_mono. lra. }
  split.
  - apply float64_nonneg. apply Qmult_le_0_compat; assumption.
  - apply Qle_trans with (pow2 p); [|exact S1].
    rewrite <- (float64_pow2 p) by lia. apply float64_mono.
    rewrite pow2_succ in Hd.
    assert (float64 c * h <= float64 c * (1 # 2)).
    { rewrite !(Qmult_comm (float64 c)). apply Qmult_le_compat_r; assumption. }
    lra.
Qed.

Lemma scaled_difference_bounds (a b h : Q) :
  is_float64 a -> is_float64 b -> a <= b -> 0 <= h -> h <= 1 # 2 ->
  0 <= float64 (float64 (b - a) * h) <= b - a.
Proof.
  intros Ha Hb Hab Hh0 Hh.
  destruct (Qlt_le_dec a b) as [Hlt|Hge].
  - apply scaled_difference_le; try assumption.
    apply float64_grid_gap; assumption.
  - assert (E : b - a == 0) by lra.
    assert (E' : float64 (b - a) * h == 0).
    { rewrite (float64_comp _ _ E), float64_0. ring. }
    rewrite (float64_comp _ _ E'), float64_0. lra.
Qed.

Lemma lerp_bounds (a b t : Q) :
  is_float64 a -> is_float64 b -> a <= b -> 0 <= t -> t <= 1 ->
  a <= lerp a b t <= b.
Proof.
  intros Ha Hb Hab Ht0 Ht1. unfold lerp.
  destruct (Qle_bool (1 # 2) t) eqn:E.
  - apply Qle_bool_iff in E.
    assert (Hh0 : 0 <= float64 (1 - t)) by (apply float64_nonneg; lra).
    assert (Hh : float64 (1 - t) <= 1 # 2).
    { rewrite <- float64_half. apply float64_mono. lra. }
    destruct (scaled_difference_bounds a b _ Ha Hb Hab Hh0 Hh) as [L U].
    split.
    + apply float64_ge; [exact Ha | lra].
    + apply float64_le; [exact Hb | lra].
  - assert (Hh : t <= 1 # 2).
    { destruct (Qlt_le_dec t (1 # 2)) as [H|H]; [lra|].
      apply Qle_bool_iff in H. congruence. }
    destruct (scaled_difference_bounds a b t Ha Hb Hab Ht0 Hh) as [L U].
    split.
    + apply float64_ge; [exact Ha | lra].
    + apply float64_le; [exact Hb | lra].
Qed.

(** Equal endpoints: the endpoint, whatever the weight. *)
Lemma lerp_tied (a b t : Q) : is_float64 a -> a == b -> lerp a b t == a.
Proof.
  intros Ha Hab. unfold lerp.
  assert (E : b - a == 0) by lra.
  assert (Z1 : forall h, float64 (float64 (b - a) * h) == 0).
  { intros h. assert (E' : float64 (b - a) * h == 0).
    { rewrite (float64_comp _ _ E), float64_0. ring. }
    rewrite (float64_comp _ _ E'), float64_0. reflexivity. }
  unfold is_float64 in Ha.
  destruct (Qle_bool (1 # 2) t).
  - assert (X : b - float64 (float64 (b - a) * float64 (1 - t)) == a) by (rewrite Z1; lra).
    rewrite (float64_comp _ _ X). exact Ha.
  - assert (X : a + float64 (float64 (b - a) * t) == a) by (rewrite Z1; lra).
    rewrite (float64_comp _ _ X). exact Ha.
Qed.

(** ** The rank of the 70th percentile *)
Lemma quantile70_value : quantile70 == 3152519739159347 # 4503599627370496.
Proof. vm_compute. reflexivity. Qed.

Lemma quantile70_gap : quantile70 == (7 # 10) - (1 # 22517998136852480).
Proof. vm_compute. reflexivity. Qed.

Lemma virtual_index_nonneg (m : Z) : (0 <= m)%Z -> 0 <= virtual_index m.
Proof.
  intros Hm. unfold virtual_index. apply float64_nonneg.
  apply Qmult_le_0_compat.
  - apply float64_nonneg. change 0 with (inject_Z 0). now rewrite <- Zle_Qle.
  - rewrite quantile70_value. discriminate.
Qed.

(** Below the last index whenever the bound check of NumPy says so. *)
Lemma virtual_index_below (m : Z) :
  virtual_index m < float64 (inject_Z m) -> virtual_index m < inject_Z m.
Proof.
  intros H. destruct (Qlt_le_dec (virtual_index m) (inject_Z m)) as [L|L]; [exact L|].
  exfalso. apply float64_mono in L.
  assert (I : float64 (virtual_index m) == virtual_index m)
    by (unfold virtual_index; apply float64_idem).
  rewrite I in L. lra.
Qed.

Lemma floor_virtual_index_range (m : Z) :
  (0 <= m)%Z -> virtual_index m < float64 (inject_Z m) ->
  (0 <= Qfloor (virtual_index m) /\ Qfloor (virtual_index m) + 1 <= m)%Z.
Proof.
  intros Hm H. split.
  - pose proof (Qfloor_resp_le 0 _ (virtual_index_nonneg m Hm)) as H0.
    change (Qfloor 0) with 0%Z in H0. exact H0.
  - apply virtual_index_below in H.
    pose proof (Qfloor_le (virtual_index m)) as Hf.
    assert (Hlt : inject_Z (Qfloor (virtual_index m)) < inject_Z m) by lra.
    rewrite <- Zlt_Qlt in Hlt. lia.
Qed.

Lemma gamma_range (v : Q) : 0 <= float64 (v - inject_Z (Qfloor v)) <= 1.
Proof.
  pose proof (Qfloor_le v) as H1. pose proof (Qlt_floor v) as H2.
  rewrite inject_Z_plus in H2. change (inject_Z 1) with 1 in H2.
  split.
  - apply float64_nonneg. lra.
  - rewrite <- float64_one. apply float64_mono. lra.
Qed.

Lemma sixteenths_exact (k : Z) :
  (0 <= k < 2 ^ 48)%Z -> float64 (inject_Z k + (15 # 16)) == inject_Z k + (15 # 16).
Proof.
  intros Hk.
  assert (E : inject_Z k + (15 # 16) == inject_Z (16 * k + 15) * pow2 (-4)).
  { rewrite inject_Z_plus, inject_Z_mult. change (pow2 (-4)) with (1 # 16).
    change (inject_Z 16) with 16. change (inject_Z 15) with 15. field. }
  rewrite (float64_comp _ _ E), float64_exact by lia. symmetry. exact E.
Qed.

Lemma virtual_index_exact_product (m : Z) :
  (0 <= m <= 2 ^ 48)%Z ->
  virtual_index m == float64 (inject_Z m * ((7 # 10) - (1 # 22517998136852480))).
Proof.
  intros Hm. unfold virtual_index. apply float64_comp.
  rewrite float64_Z by lia. rewrite quantile70_gap. reflexivity.
Qed.

Lemma virtual_index_bounds (m : Z) :
  (0 <= m <= 2 ^ 48)%Z ->
  let k := (7 * m / 10)%Z in
  inject_Z k - 1 <= virtual_index m
  /\ virtual_index m <= inject_Z k + (15 # 16)
  /\ (((7 * m) mod 10 <> 0)%Z -> inject_Z k <= virtual_index m).
Proof.
  intros Hm k.
  pose proof (Z.div_mod (7 * m) 10 ltac:(lia)) as Hdm. fold k in Hdm.
  pose proof (Z.mod_pos_bound (7 * m) 10 ltac:(lia)) as Hr.
  set (r := ((7 * m) mod 10)%Z) in *.
  assert (Hk : (0 <= k < 2 ^ 48)%Z) by lia.
  assert (Eq : inject_Z 7 * inject_Z m == inject_Z 10 * inject_Z k + inject_Z r).
  { rewrite <- !inject_Z_mult, <- inject_Z_plus. now rewrite Hdm. }
  change (inject_Z 7) with 7 in Eq. change (inject_Z 10) with 10 in Eq.
  assert (Hr0 : 0 <= inject_Z r) by (change 0 with (inject_Z 0); rewrite <- Zle_Qle; lia).
  assert (Hm0 : 0 <= inject_Z m) by (change 0 with (inject_Z 0); rewrite <- Zle_Qle; lia).
  assert (Hm1 : inject_Z m <= inject_Z (2 ^ 48)) by (rewrite <- Zle_Qle; lia).
  change (inject_Z (2 ^ 48)) with 281474976710656 in Hm1.
  set (x := inject_Z m * ((7 # 10) - (1 # 22517998136852480))).
  assert (Hx : virtual_index m == float64 x) by (apply virtual_index_exact_product; exact Hm).
  assert (Ex : x == inject_Z k + inject_Z r * (1 # 10) - inject_Z m * (1 # 22517998136852480)).
  { unfold x. lra. }
  split; [|split].
  - destruct (Z.eq_dec k 0) as [K0|K0].
    + rewrite K0. pose proof (virtual_index_nonneg m ltac:(lia)).
      change (inject_Z 0) with 0. lra.
    + assert (Ek : inject_Z k - 1 == inject_Z (k - 1)).
      { unfold Z.sub. rewrite inject_Z_plus, inject_Z_opp. change (inject_Z 1) with 1. lra. }
      rewrite Ek, Hx, <- (float64_Z (k - 1)) by lia. apply float64_mono.
      rewrite <- Ek. lra.
  - assert (Hr9 : inject_Z r <= 9) by (change 9 with (inject_Z 9); rewrite <- Zle_Qle; lia).
    rewrite Hx, <- sixteenths_exact by exact Hk. apply float64_mono. lra.
  - intros Hne.
    assert (Hr1 : 1 <= inject_Z r) by (change 1 with (inject_Z 1); rewrite <- Zle_Qle; lia).
    rewrite Hx, <- (float64_Z k) by lia. apply float64_mono. lra.
Qed.

Lemma floor_virtual_index_bounds (m : Z) :
  (0 <= m <= 2 ^ 48)%Z ->
  let k := (7 * m / 10)%Z in
  (k - 1 <= Qfloor (virtual_index m) <= k)%Z
  /\ ((7 * m) mod 10 <> 0 -> Qfloor (virtual_index m) = k)%Z.
Proof.
  intros Hm k. destruct (virtual_index_bounds m Hm) as (Lo & Up & Ex). fold k in Lo, Up, Ex.
  assert (Hle : (Qfloor (virtual_index m) <= k)%Z).
  { pose proof (Qfloor_le (virtual_index m)) as Hf.
    assert (Hlt : inject_Z (Qfloor (virtual_index m)) < inject_Z (k + 1)).
    { rewrite inject_Z_plus. change (inject_Z 1) with 1. lra. }
    rewrite <- Zlt_Qlt in Hlt. lia. }
  split; [split; [|exact Hle]|].
  - assert (Ek : inject_Z (k - 1) <= virtual_index m).
    { unfold Z.sub. rewrite inject_Z_plus, inject_Z_opp. change (inject_Z 1) with 1. lra. }
    apply Qfloor_resp_le in Ek. rewrite Qfloor_Z in Ek. exact Ek.
  - intros Hne. specialize (Ex Hne).
    apply Qfloor_resp_le in Ex. rewrite Qfloor_Z in Ex. lia.
Qed.

(** Past the first element the bound check of NumPy never fires. *)
Lemma virtual_index_inside (m : Z) :
  (1 <= m <= 2 ^ 48)%Z -> virtual_index m < float64 (inject_Z m).
Proof.
  intros Hm. destruct (virtual_index_bounds m ltac:(lia)) as (_ & Up & _).
  rewrite float64_Z by lia.
  assert (Hk : (7 * m / 10 + 1 <= m)%Z).
  { assert (7 * m / 10 < m)%Z by (apply Z.div_lt_upper_bound; lia). lia. }
  rewrite Zle_Qle, inject_Z_plus in Hk. change (inject_Z 1) with 1 in Hk. lra.
Qed.

(** ** The 70th percentile *)

Lemma Forall_is_float64_asanyarray (a : ndarray) : Forall is_float64 (asanyarray a).
Proof.
  unfold asanyarray. apply Forall_forall. intros x Hx.
  apply in_map_iff in Hx. destruct Hx as (y & <- & _). apply is_float64_float64.
Qed.

Lemma length_asanyarray (a : ndarray) : length (asanyarray a) = length a.
Proof. apply length_map. Qed.

Lemma percentile_empty (q : Q) : percentile [] q = inl IndexError.
Proof. reflexivity. Qed.

Lemma percentile_returns (a : ndarray) (q : Q) :
  (0 < length a)%nat -> exists t, percentile a q = inr t.
Proof.
  intros Hn. unfold percentile. rewrite length_sort, length_asanyarray.
  destruct (length a =? 0)%nat eqn:E; [apply Nat.eqb_eq in E; lia|].
  eexists. reflexivity.
Qed.

Lemma percentile_raises (a : ndarray) (q : Q) (e : Exn) :
  percentile a q = inl e -> a = [] /\ e = IndexError.
Proof.
  unfold percentile. rewrite length_sort, length_asanyarray.
  destruct (length a =? 0)%nat eqn:E; [|discriminate].
  apply Nat.eqb_eq in E. intros H. split; [now apply length_zero_iff_nil|congruence].
Qed.

Lemma percentile_rank_below (n : nat) : (0 < n)%nat -> (percentile_rank n < n)%nat.
Proof.
  intros Hn. unfold percentile_rank. cbv zeta.
  destruct (Qle_bool _ _) eqn:E; [lia|].
  assert (H : virtual_index (Z.of_nat n - 1) < float64 (inject_Z (Z.of_nat n - 1))).
  { destruct (Qlt_le_dec (virtual_index (Z.of_nat n - 1))
                         (float64 (inject_Z (Z.of_nat n - 1)))) as [L|L]; [exact L|].
    apply Qle_bool_iff in L. congruence. }
  destruct (floor_virtual_index_range (Z.of_nat n - 1) ltac:(lia) H). lia.
Qed.

(** The threshold lies between the elements of ranks [percentile_rank n] and
    the next one (the same one at the end of the array) of the sorted array. *)
Lemma percentile_70_bounds (a : ndarray) (t : Q) :
  percentile a 70 = inr t ->
  let n := length a in
  let j := percentile_rank n in
  let s := sort (asanyarray a) in
  (0 < n)%nat /\ (nth j s 0 <= t)%Q /\ (t <= nth (Nat.min (S j) (n - 1)) s 0)%Q.
Proof.
  intros H n j s.
  assert (Hs : StronglySorted Qle s) by apply sort_sorted.
  assert (Hf : Forall is_float64 s).
  { eapply Permutation_Forall; [apply sort_perm|]. apply Forall_is_float64_asanyarray. }
  assert (Hlen : length s = n).
  { unfold s. now rewrite length_sort, length_asanyarray. }
  revert H. unfold percentile. fold s. rewrite Hlen.
  destruct (n =? 0)%nat eqn:En; [discriminate|].
  apply Nat.eqb_neq in En. assert (Hn : (0 < n)%nat) by lia.
  fold quantile70. fold (virtual_index (Z.of_nat n - 1)).
  set (m := (Z.of_nat n - 1)%Z).
  assert (Hm : (0 <= m)%Z) by (unfold m; lia).
  pose proof (virtual_index_nonneg m Hm) as Hv0.
  assert (Hbelow : Qltb (virtual_index m) 0 = false).
  { destruct (Qltb (virtual_index m) 0) eqn:E; [|reflexivity].
    apply Qltb_lt in E. lra. }
  rewrite Hbelow.
  assert (Hj : j = if Qle_bool (float64 (inject_Z m)) (virtual_index m)
                   then (n - 1)%nat else Z.to_nat (Qfloor (virtual_index m)))
    by reflexivity.
  assert (Hnth : forall i, (i < n)%nat -> is_float64 (nth i s 0)).
  { intros i Hi. rewrite Forall_forall in Hf. apply Hf, nth_In. lia. }
  destruct (Qle_bool (float64 (inject_Z m)) (virtual_index m)) eqn:Eabove.
  - try rewrite Eabove in Hj.
    intros H. injection H as <-. split; [exact Hn|].
    assert (Hitem : item s (-1) = nth j s 0).
    { unfold item. cbn [Z.ltb Z.compare]. rewrite Hlen, Hj. f_equal. lia. }
    rewrite Hitem.
    assert (Hmin : Nat.min (S j) (n - 1) = j) by lia. rewrite Hmin.
    pose proof (lerp_tied (nth j s 0) (nth j s 0)
                  (float64 (virtual_index m - inject_Z (-1)))
                  (Hnth j ltac:(lia)) (Qeq_refl _)) as Ht.
    rewrite Ht. split; apply Qle_refl.
  - try rewrite Eabove in Hj.
    assert (Hlt : virtual_index m < float64 (inject_Z m)).
    { destruct (Qlt_le_dec (virtual_index m) (float64 (inject_Z m))) as [L|L]; [exact L|].
      apply Qle_bool_iff in L. congruence. }
    destruct (floor_virtual_index_range m Hm Hlt) as [F0 F1].
    intros H. injection H as <-. split; [exact Hn|].
    assert (Hprev : item s (Qfloor (virtual_index m)) = nth j s 0).
    { unfold item. destruct (Qfloor (virtual_index m) <? 0)%Z eqn:E;
        [apply Z.ltb_lt in E; lia|]. now rewrite Hj. }
    assert (Hnext : item s (Qfloor (virtual_index m) + 1) = nth (S j) s 0).
    { unfold item. destruct (Qfloor (virtual_index m) + 1 <? 0)%Z eqn:E;
        [apply Z.ltb_lt in E; lia|]. rewrite Hj. f_equal.
      rewrite Z2Nat.inj_add by lia. change (Z.to_nat 1) with 1%nat. lia. }
    rewrite Hprev, Hnext.
    assert (Em : m = (Z.of_nat n - 1)%Z) by reflexivity.
    assert (HSj : (S j < n)%nat) by (rewrite Hj; lia).
    assert (Hmin : Nat.min (S j) (n - 1) = S j) by lia. rewrite Hmin.
    destruct (gamma_range (virtual_index m)) as [G0 G1].
    apply lerp_bounds; try assumption.
    + apply Hnth. lia.
    + apply Hnth. lia.
    + apply sorted_nth_le; [exact Hs | lia | lia].
Qed.

Lemma percentile_rank_bounds (n : nat) :
  (0 < n)%nat -> (Z.of_nat n <= 2 ^ 48)%Z ->
  let k := (7 * (n - 1) / 10)%nat in
  (k - 1 <= percentile_rank n <= k)%nat
  /\ ((7 * (n - 1)) mod 10 <> 0 -> percentile_rank n = k)%nat.
Proof.
  intros Hn Hbig k.
  assert (Ek : Z.of_nat k = (7 * (Z.of_nat n - 1) / 10)%Z).
  { unfold k. rewrite Nat2Z.inj_div, Nat2Z.inj_mul, Nat2Z.inj_sub by lia. reflexivity. }
  assert (Er : Z.of_nat ((7 * (n - 1)) mod 10) = ((7 * (Z.of_nat n - 1)) mod 10)%Z).
  { rewrite Nat2Z.inj_mod, Nat2Z.inj_mul, Nat2Z.inj_sub by lia. reflexivity. }
  unfold percentile_rank. cbv zeta.
  set (m := (Z.of_nat n - 1)%Z) in *.
  destruct (Z.eq_dec m 0) as [M0|M0].
  - assert (En : n = 1%nat) by lia. subst n. vm_compute. split; [split; lia | reflexivity].
  - assert (Hm : (1 <= m <= 2 ^ 48)%Z) by lia.
    pose proof (virtual_index_inside m Hm) as Hin.
    destruct (Qle_bool (float64 (inject_Z m)) (virtual_index m)) eqn:E.
    + apply Qle_bool_iff in E. lra.
    + destruct (floor_virtual_index_bounds m ltac:(lia)) as [[F1 F2] F3].
      destruct (floor_virtual_index_range m ltac:(lia) Hin) as [F0 _].
      split; [lia|]. intros Hne. rewrite F3 by lia. rewrite <- Ek. apply Nat2Z.id.
Qed.

(** Within the range of scores of the model the threshold stays in range:
    no operation of [np.percentile] comes near overflow. *)
Lemma float64_abs_le (x : Q) (e : Z) :
  (-1074 <= e)%Z -> Qabs x <= pow2 e -> Qabs (float64 x) <= pow2 e.
Proof.
  intros He H. apply Qabs_Qle_condition in H. destruct H as [H1 H2].
  assert (E : float64 (- pow2 e) == - pow2 e).
  { rewrite float64_opp, float64_pow2 by exact He. reflexivity. }
  apply Qabs_Qle_condition. split.
  - rewrite <- E. apply float64_mono, H1.
  - rewrite <- (float64_pow2 e He). apply float64_mono, H2.
Qed.

Lemma percentile_70_within_range (a : ndarray) (t : Q) :
  percentile a 70 = inr t -> within_range a -> Qabs t <= pow2 1022.
Proof.
  intros Ht Hr.
  destruct (percentile_70_bounds a t Ht) as (Hn & Hlo & Hhi).
  set (n := length a) in *. set (j := percentile_rank n) in *.
  set (s := sort (asanyarray a)) in *.
  assert (Hj : (j < n)%nat) by (apply percentile_rank_below; exact Hn).
  assert (Hs : forall i, (i < n)%nat -> Qabs (nth i s 0) <= pow2 1022).
  { intros i Hi.
    assert (Hin : In (nth i s 0) (asanyarray a)).
    { apply (Permutation_in _ (Permutation_sym (sort_perm _))).
      apply nth_In. unfold s. rewrite length_sort, length_asanyarray. exact Hi. }
    unfold asanyarray in Hin. apply in_map_iff in Hin. destruct Hin as (x & <- & Hx).
    apply float64_abs_le; [lia|].
    unfold within_range in Hr. rewrite Forall_forall in Hr. apply Hr, Hx. }
  pose proof (Hs j Hj) as B1.
  pose proof (Hs (Nat.min (S j) (n - 1)) ltac:(lia)) as B2.
  apply Qabs_Qle_condition in B1. apply Qabs_Qle_condition in B2.
  apply Qabs_Qle_condition. split; lra.
Qed.

(** ** C2: labels and their prevalence *)

Lemma positives_greater_than (t : Q) (a : ndarray) :
  positives (greater_than a t) = count_above t (asanyarray a).
Proof.
  unfold positives, count_above, greater_than, asanyarray.
  induction a as [|x a IH]; simpl; [reflexivity|].
  destruct (Qltb t (float64 x)); simpl; now rewrite IH.
Qed.

Lemma length_greater_than (a : ndarray) (t : Q) :
  length (greater_than a t) = length a.
Proof. apply length_map. Qed.

Lemma nth_greater_than (t : Q) (a : ndarray) (i : nat) :
  (i < length a)%nat ->
  nth i (greater_than a t) 0%Q = if Qltb t (float64 (nth i a 0%Q)) then 1%Q else 0%Q.
Proof.
  intros Hi. unfold greater_than.
  rewrite (nth_indep _ 0%Q ((fun x => if Qltb t (float64 x) then 1%Q else 0%Q) 0%Q))
    by (rewrite length_map; exact Hi).
  apply (map_nth (fun x => if Qltb t (float64 x) then 1%Q else 0%Q)).
Qed.

Lemma greater_than_binary (a : ndarray) (t : Q) :
  Forall (fun l => l = 0%Q \/ l = 1%Q) (greater_than a t).
Proof.
  unfold greater_than. apply Forall_forall. intros l Hl.
  apply in_map_iff in Hl. destruct Hl as (x & <- & _).
  destruct (Qltb t (float64 x)); auto.
Qed.

Lemma label_same (score : ndarray) : ConvertToTflite.label score = TrainModel.label score.
Proof. reflexivity. Qed.

Lemma label_returns (score : ndarray) (t : Q) :
  percentile score 70 = inr t -> TrainModel.label score = inr (greater_than score t).
Proof. intros H. unfold TrainModel.label. now rewrite H. Qed.

Lemma label_empty : TrainModel.label [] = inl IndexError.
Proof. reflexivity. Qed.

Lemma label_nonempty (score : ndarray) :
  (0 < length score)%nat ->
  exists t, percentile score 70 = inr t /\ TrainModel.label score = inr (greater_than score t).
Proof.
  intros Hn. destruct (percentile_returns score 70 Hn) as [t Ht].
  exists t. split; [exact Ht | now apply label_returns].
Qed.

Lemma count_above_sorted_ge (s : ndarray) (k : nat) (t : Q) :
  StronglySorted Qle s -> ((S k < length s)%nat -> (t < nth (S k) s 0)%Q) ->
  (length s - S k <= count_above t s)%nat.
Proof.
  intros Hs Ht.
  destruct (Nat.lt_ge_cases (S k) (length s)) as [Hk|Hk]; [|lia].
  rewrite <- (firstn_skipn (S k) s) at 2. rewrite count_above_app.
  rewrite (count_above_all t (skipn (S k) s)) by (apply sorted_suffix_above; auto).
  rewrite length_skipn. lia.
Qed.

(** The positives of a labelled batch, counted from the rank of the threshold. *)
Lemma positives_bounds (score : ndarray) (t : Q) :
  percentile score 70 = inr t ->
  let n := length score in
  let j := percentile_rank n in
  let sorted := sort (asanyarray score) in
  (positives (greater_than score t) <= n - 1 - j)%nat
  /\ (((S (S j) < n)%nat -> (nth (S j) sorted 0 < nth (S (S j)) sorted 0)%Q) ->
      (n - 2 - j <= positives (greater_than score t))%nat).
Proof.
  intros Ht n j sorted.
  destruct (percentile_70_bounds score t Ht) as (Hn & Hlo & Hhi). fold n j sorted in Hlo, Hhi.
  assert (Hlen : length sorted = n).
  { unfold sorted. now rewrite length_sort, length_asanyarray. }
  assert (Hj : (j < n)%nat) by (apply percentile_rank_below; exact Hn).
  rewrite positives_greater_than.
  rewrite (count_above_perm t (asanyarray score) sorted) by apply sort_perm.
  split.
  - pose proof (count_above_sorted_le sorted j t (sort_sorted _)) as Hc.
    rewrite Hlen in Hc. apply Hc; assumption.
  - intros Hgap.
    pose proof (count_above_sorted_ge sorted (S j) t (sort_sorted _)) as Hc.
    rewrite Hlen in Hc.
    assert (n - S (S j) <= count_above t sorted)%nat; [|lia].
    apply Hc. intros HSS. specialize (Hgap HSS).
    assert (Hmin : Nat.min (S j) (n - 1) = S j) by lia. rewrite Hmin in Hhi. lra.
Qed.

Lemma count_near_three_tenths (n j count : nat) (r : Z) :
  (0 < n)%nat ->
  (7 * (n - 1) / 10 - 1 <= j <= 7 * (n - 1) / 10)%nat ->
  ((7 * (n - 1)) mod 10 <> 0 -> j = 7 * (n - 1) / 10)%nat ->
  (Qabs (inject_Z r - 0.3 * inject_Z (Z.of_nat n)) <= 1 # 2)%Q ->
  ((count <= n - 1 - j)%nat -> (Z.of_nat count <= r + 1)%Z)
  /\ ((n - 2 - j <= count)%nat -> (r - 1 <= Z.of_nat count)%Z).
Proof.
  intros Hn Hj Hexact Hr.
  apply Qabs_Qle_condition in Hr. destruct Hr as [Hr1 Hr2].
  assert (H1 : (3 * Z.of_nat n <= 10 * r + 5)%Z).
  { rewrite Zle_Qle, inject_Z_plus, !inject_Z_mult.
    change (inject_Z 3) with 3%Q. change (inject_Z 5) with 5%Q.
    change (inject_Z 10) with 10%Q. lra. }
  assert (H2 : (10 * r <= 3 * Z.of_nat n + 5)%Z).
  { rewrite Zle_Qle, inject_Z_plus, !inject_Z_mult.
    change (inject_Z 3) with 3%Q. change (inject_Z 5) with 5%Q.
    change (inject_Z 10) with 10%Q. lra. }
  pose proof (Nat.div_mod_eq (7 * (n - 1)) 10) as Hdiv.
  pose proof (Nat.mod_upper_bound (7 * (n - 1)) 10 ltac:(lia)) as Hmod.
  set (k := (7 * (n - 1) / 10)%nat) in *.
  set (m := ((7 * (n - 1)) mod 10)%nat) in *.
  destruct (Nat.eq_dec m 0) as [M0|M0].
  - split; intros Hc; lia.
  - specialize (Hexact M0). split; intros Hc; lia.
Qed.

(** C2: in a batch of n scores on which [np.percentile] returns the threshold
    t (the labeler is the same in both pipelines, and the scores are read as
    the doubles the array holds):
    - the labeler returns n labels; a sample has label 1 exactly when its
      score is strictly above t, and label 0 otherwise;
    - t lies between the sorted scores of ranks j and j + 1, where j is the
      rank NumPy interpolates from (and so within the range of the scores,
      away from overflow), so at most n - 1 - j samples have label
      1, and at least n - 2 - j when the sorted scores of ranks j + 1 and
      j + 2 differ (no tie just above the threshold);
    - for batches of at most 2^48 samples, j is floor(0.7 (n - 1)) or one
      less, and is floor(0.7 (n - 1)) whenever 0.7 (n - 1) is not an integer;
      so for every integer r nearest to 0.3 n, at most r + 1 samples have
      label 1, and at least r - 1 when there is no tie just above the
      threshold: the count is within 1 of round(0.3 n). *)
Theorem C2_labels_above_percentile (score : ndarray) (t : Q) :
  percentile score 70 = inr t -> within_range score ->
  let n := length score in
  let j := percentile_rank n in
  let k := (7 * (n - 1) / 10)%nat in
  let sorted := sort (asanyarray score) in
  let no_tie_above := ((S (S j) < n)%nat -> (nth (S j) sorted 0 < nth (S (S j)) sorted 0)%Q) in
  exists labels,
    TrainModel.label score = inr labels
    /\ ConvertToTflite.label score = inr labels
    /\ length labels = n
    /\ (forall i, (i < n)%nat ->
          ((nth i labels 0 == 1)%Q <-> (t < float64 (nth i score 0))%Q)
          /\ ((nth i labels 0 == 0)%Q <-> ~ (t < float64 (nth i score 0))%Q)
          /\ (is_float64 (nth i score 0) ->
              ((nth i labels 0 == 1)%Q <-> (t < nth i score 0)%Q)))
    /\ (nth j sorted 0 <= t <= nth (Nat.min (S j) (n - 1)) sorted 0)%Q
    /\ (Qabs t <= pow2 1022)%Q
    /\ (positives labels <= n - 1 - j)%nat
    /\ (no_tie_above -> (n - 2 - j <= positives labels)%nat)
    /\ ((Z.of_nat n <= 2 ^ 48)%Z ->
        (k - 1 <= j <= k)%nat
        /\ ((7 * (n - 1)) mod 10 <> 0 -> j = k)%nat
        /\ forall r : Z,
             (Qabs (inject_Z r - 0.3 * inject_Z (Z.of_nat n)) <= 1 # 2)%Q ->
             (Z.of_nat (positives labels) <= r + 1)%Z
             /\ (no_tie_above -> (r - 1 <= Z.of_nat (positives labels))%Z)).
Proof.
  intros Ht Hrange n j k sorted no_tie_above.
  destruct (percentile_70_bounds score t Ht) as (Hn & Hlo & Hhi).
  fold n j sorted in Hlo, Hhi.
  destruct (positives_bounds score t Ht) as [Hup Hdown].
  fold n j sorted in Hup, Hdown. fold no_tie_above in Hdown.
  exists (greater_than score t).
  split; [now apply label_returns|].
  split; [rewrite label_same; now apply label_returns|].
  split; [apply length_greater_than|].
  split; [|split; [split; assumption|
                   split; [now apply (percentile_70_within_range score)|
                           split; [exact Hup|split; [exact Hdown|]]]]].
  - intros i Hi. rewrite nth_greater_than by exact Hi.
    assert (Hone : ((if Qltb t (float64 (nth i score 0)) then 1 else 0) == 1)%Q
                   <-> (t < float64 (nth i score 0))%Q).
    { rewrite <- Qltb_lt. destruct (Qltb t (float64 (nth i score 0%Q))).
      - split; reflexivity.
      - split; [vm_compute|]; discriminate. }
    split; [exact Hone|]. split.
    + rewrite <- Qltb_lt. destruct (Qltb t (float64 (nth i score 0%Q))).
      * split; [vm_compute; discriminate | intros H; now contradiction H].
      * split; [discriminate | reflexivity].
    + intros Hf. unfold is_float64 in Hf. rewrite Hone, Hf. reflexivity.
  - intros Hbig.
    destruct (percentile_rank_bounds n Hn Hbig) as [Hjk Hexact]. fold j k in Hjk, Hexact.
    split; [exact Hjk|]. split; [exact Hexact|].
    intros r Hr.
    destruct (count_near_three_tenths n j (positives (greater_than score t)) r
                Hn Hjk Hexact Hr) as [Hle Hge].
    split; [exact (Hle Hup)|]. intros Hgap. exact (Hge (Hdown Hgap)).
Qed.

(** Ten distinct scores: the threshold is the double next to 7.3, rank 6, and
    two or three samples are positive (three, in fact). *)
Lemma C2_labels_above_percentile_witness :
  exists labels,
    TrainModel.label [3; 10; 1; 7; 5; 2; 9; 4; 8; 6]%Q = inr labels
    /\ (2 <= positives labels <= 3)%nat.
Proof.
  assert (Hrange : within_range [3; 10; 1; 7; 5; 2; 9; 4; 8; 6]%Q)
    by (repeat constructor; vm_compute; discriminate).
  destruct (C2_labels_above_percentile
              [3; 10; 1; 7; 5; 2; 9; 4; 8; 6]%Q (8219069319951155 # 1125899906842624)%Q
              ltac:(vm_compute; reflexivity) Hrange)
    as (labels & Hl & _ & _ & _ & _ & _ & Hup & Hdown & _).
  exists labels. split; [exact Hl|].
  assert (Hj : percentile_rank (length [3; 10; 1; 7; 5; 2; 9; 4; 8; 6]%Q) = 6%nat)
    by (vm_compute; reflexivity).
  rewrite Hj in Hup, Hdown. cbn [length] in Hup, Hdown.
  split; [|exact Hup].
  apply Hdown. intros _. vm_compute. reflexivity.
Defined.

(** The rounding of the rank decides labels.  Of the 91 scores 0, 1, ..., 90
    the virtual index 0.7 * 90 is computed just below 63: NumPy interpolates
    from rank 62, the threshold is the double just below 63 and 28 samples
    are positive.  The same scores moved up by 1000 get the threshold 1063
    (written 4675123441303552 / 2^42 below) and 27 positives: the labels are
    not invariant under a shift of the scores. *)
Example ninety_one_scores :
  percentile_rank 91 = 62%nat
  /\ percentile (map (fun i => inject_Z (Z.of_nat i)) (seq 0 91)) 70
     = inr (8866461766385663 # 140737488355328)%Q
  /\ percentile (map (fun i => inject_Z (Z.of_nat i) + 1000)%Q (seq 0 91)) 70
     = inr (4675123441303552 # 4398046511104)%Q
  /\ exists labels shifted,
       TrainModel.label (map (fun i => inject_Z (Z.of_nat i)) (seq 0 91)) = inr labels
       /\ TrainModel.label (map (fun i => inject_Z (Z.of_nat i) + 1000)%Q (seq 0 91))
          = inr shifted
       /\ positives labels = 28%nat /\ positives shifted = 27%nat.
Proof.
  split; [vm_compute; reflexivity|].
  split; [vm_compute; reflexivity|].
  split; [vm_compute; reflexivity|].
  eexists. eexists.
  split; [vm_compute; reflexivity|].
  split; [vm_compute; reflexivity|].
  split; vm_compute; reflexivity.
Qed.

(** ** The generators *)

Lemma length_column_stack4 (c0 c1 c2 c3 : ndarray) (n : nat) :
  length c0 = n -> length c1 = n -> length c2 = n -> length c3 = n ->
  length (column_stack4 c0 c1 c2 c3) = n.
Proof.
  revert c1 c2 c3 n.
  induction c0 as [|x0 c0 IH]; intros [|x1 c1] [|x2 c2] [|x3 c3] n; simpl; intros;
    try lia.
  destruct n as [|n]; [lia|]. f_equal. apply IH; lia.
Qed.

Lemma length_linear_score (c0 c1 c2 c3 : Q) (a0 a1 a2 a3 : ndarray) (n : nat) :
  length a0 = n -> length a1 = n -> length a2 = n -> length a3 = n ->
  length (sub (add (add (mul_scalar a0 c0) (mul_scalar a1 c1)) (mul_scalar a2 c2))
              (mul_scalar a3 c3)) = n.
Proof.
  intros. unfold sub, add, mul_scalar.
  rewrite !length_zip_with, !length_map. lia.
Qed.

Section Generators.
Context {R : NumpyRandom}.

Lemma raw_draws_lengths (n : nat) :
  length (fst (fst (raw_draws n))) = n /\ length (snd (fst (raw_draws n))) = n
  /\ length (fst (snd (raw_draws n))) = n /\ length (snd (snd (raw_draws n))) = n.
Proof.
  unfold raw_draws.
  pose proof (rng_normal_size 5.0%Q 1.5%Q n (rng_seed 42)) as H0.
  destruct (rng_normal 5.0%Q 1.5%Q n (rng_seed 42)) as [c0 s0].
  pose proof (rng_beta_size 2%Q 10%Q n s0) as H1.
  destruct (rng_beta 2%Q 10%Q n s0) as [c1 s1].
  pose proof (rng_normal_size 0.6%Q 0.2%Q n s1) as H2.
  destruct (rng_normal 0.6%Q 0.2%Q n s1) as [c2 s2].
  pose proof (rng_exponential_size 60%Q n s2) as H3.
  destruct (rng_exponential 60%Q n s2) as [c3 s3].
  cbn [fst snd] in *. auto.
Qed.

(** The network pipeline's data set, as a function of the raw draws. *)
Lemma generate_training_data_of_raw (n : nat) (s0 : rng_state) :
  fst (ConvertToTflite.generate_training_data n s0)
  = (let ts := ConvertToTflite.normalize_typing_speed (fst (fst (raw_draws n))) in
     let br := ConvertToTflite.normalize_backspace_ratio (snd (fst (raw_draws n))) in
     let tp := ConvertToTflite.normalize_touch_pressure (fst (snd (raw_draws n))) in
     let sl := ConvertToTflite.normalize_session_length (snd (snd (raw_draws n))) in
     match ConvertToTflite.label (ConvertToTflite.stress_score ts br tp sl) with
     | inr y => inr (column_stack4 ts br tp sl, y)
     | inl e => inl e
     end).
Proof.
  unfold ConvertToTflite.generate_training_data, raw_draws.
  destruct (rng_normal 5.0%Q 1.5%Q n (rng_seed 42)) as [c0 s1].
  destruct (rng_beta 2%Q 10%Q n s1) as [c1 s2].
  destruct (rng_normal 0.6%Q 0.2%Q n s2) as [c2 s3].
  destruct (rng_exponential 60%Q n s3) as [c3 s4].
  cbv zeta. cbn [fst snd].
  destruct (ConvertToTflite.label _); reflexivity.
Qed.

(** The ensemble pipeline's frame, as a function of the raw draws. *)
Lemma generate_synthetic_data_of_raw (n : nat) (s0 : rng_state) :
  fst (TrainModel.generate_synthetic_data n s0)
  = (let ts := fst (fst (raw_draws n)) in
     let br := snd (fst (raw_draws n)) in
     let tp := fst (snd (raw_draws n)) in
     let sl := snd (snd (raw_draws n)) in
     match TrainModel.label (TrainModel.stress_score ts br tp sl) with
     | inr labels =>
         inr [("typing_speed", ts); ("backspace_ratio", br); ("touch_pressure", tp);
              ("session_length", sl); ("is_stressed", labels)]
     | inl e => inl e
     end).
Proof.
  unfold TrainModel.generate_synthetic_data, raw_draws.
  destruct (rng_normal 5.0%Q 1.5%Q n (rng_seed 42)) as [c0 s1].
  destruct (rng_beta 2%Q 10%Q n s1) as [c1 s2].
  destruct (rng_normal 0.6%Q 0.2%Q n s2) as [c2 s3].
  destruct (rng_exponential 60%Q n s3) as [c3 s4].
  cbv zeta. cbn [fst snd].
  destruct (TrainModel.label _); reflexivity.
Qed.

Lemma normalized_draws_lengths (n : nat) :
  length (ConvertToTflite.normalize_typing_speed (fst (fst (raw_draws n)))) = n
  /\ length (ConvertToTflite.normalize_backspace_ratio (snd (fst (raw_draws n)))) = n
  /\ length (ConvertToTflite.normalize_touch_pressure (fst (snd (raw_draws n)))) = n
  /\ length (ConvertToTflite.normalize_session_length (snd (snd (raw_draws n)))) = n.
Proof.
  destruct (raw_draws_lengths n) as (H0 & H1 & H2 & H3).
  unfold ConvertToTflite.normalize_typing_speed, ConvertToTflite.normalize_backspace_ratio,
    ConvertToTflite.normalize_touch_pressure, ConvertToTflite.normalize_session_length,
    div_scalar, sub_scalar, mul_scalar.
  rewrite !length_map. auto.
Qed.

Lemma ensemble_score_length (n : nat) : length (ensemble_score n) = n.
Proof.
  destruct (raw_draws_lengths n) as (H0 & H1 & H2 & H3).
  unfold ensemble_score, TrainModel.stress_score. apply length_linear_score; assumption.
Qed.

Lemma network_score_length (n : nat) : length (network_score n) = n.
Proof.
  destruct (normalized_draws_lengths n) as (H0 & H1 & H2 & H3).
  unfold network_score, ConvertToTflite.stress_score. apply length_linear_score; assumption.
Qed.

Lemma network_features_length (n : nat) : length (network_features n) = n.
Proof.
  destruct (normalized_draws_lengths n) as (H0 & H1 & H2 & H3).
  unfold network_features. apply length_column_stack4; assumption.
Qed.

(** On at least one sample both generators return: the features they drew,
    and the labels of their scores against the 70th percentile. *)
Lemma generate_synthetic_data_returns (n : nat) (s0 : rng_state) :
  (0 < n)%nat ->
  exists t,
    percentile (ensemble_score n) 70 = inr t
    /\ fst (TrainModel.generate_synthetic_data n s0)
       = inr [("typing_speed", fst (fst (raw_draws n)));
              ("backspace_ratio", snd (fst (raw_draws n)));
              ("touch_pressure", fst (snd (raw_draws n)));
              ("session_length", snd (snd (raw_draws n)));
              ("is_stressed", greater_than (ensemble_score n) t)].
Proof.
  intros Hn.
  destruct (label_nonempty (ensemble_score n)) as (t & Ht & Hl).
  { rewrite ensemble_score_length. exact Hn. }
  exists t. split; [exact Ht|].
  rewrite generate_synthetic_data_of_raw. cbv zeta.
  fold (ensemble_score n). rewrite Hl. reflexivity.
Qed.

Lemma generate_training_data_returns (n : nat) (s0 : rng_state) :
  (0 < n)%nat ->
  exists t,
    percentile (network_score n) 70 = inr t
    /\ fst (ConvertToTflite.generate_training_data n s0)
       = inr (network_features n, greater_than (network_score n) t).
Proof.
  intros Hn.
  destruct (label_nonempty (network_score n)) as (t & Ht & Hl).
  { rewrite network_score_length. exact Hn. }
  exists t. split; [exact Ht|].
  rewrite generate_training_data_of_raw. cbv zeta.
  fold (network_score n). fold (network_features n).
  rewrite label_same, Hl. reflexivity.
Qed.

(** Without a sample both generators raise [IndexError], inside
    [np.percentile]. *)
Lemma generate_synthetic_data_raises (s0 : rng_state) :
  fst (TrainModel.generate_synthetic_data 0 s0) = inl IndexError.
Proof.
  rewrite generate_synthetic_data_of_raw. cbv zeta. fold (ensemble_score 0).
  pose proof (ensemble_score_length 0) as H. apply length_zero_iff_nil in H.
  rewrite H. reflexivity.
Qed.

Lemma generate_training_data_raises (s0 : rng_state) :
  fst (ConvertToTflite.generate_training_data 0 s0) = inl IndexError.
Proof.
  rewrite generate_training_data_of_raw. cbv zeta. fold (network_score 0).
  pose proof (network_score_length 0) as H. apply length_zero_iff_nil in H.
  rewrite H. reflexivity.
Qed.

Lemma generate_training_data_lengths (n : nat) (s0 : rng_state)
  (X : list (list Q)) (y : ndarray) :
  fst (ConvertToTflite.generate_training_data n s0) = inr (X, y) ->
  length X = n /\ length y = n.
Proof.
  intros H. destruct n as [|n].
  - rewrite generate_training_data_raises in H. discriminate.
  - destruct (generate_training_data_returns (S n) s0 ltac:(lia)) as (t & _ & Hg).
    rewrite Hg in H. injection H as <- <-.
    split; [apply network_features_length|].
    rewrite length_greater_than. apply network_score_length.
Qed.

End Generators.

(** ** The training loop *)

Section FitFacts.
Context {R : NumpyRandom} {T : Tensorflow}.

Lemma iter_shift {A} (f : A -> A) (k : nat) (x : A) :
  Nat.iter k f (f x) = Nat.iter (S k) f x.
Proof.
  induction k as [|k IH]; simpl; [reflexivity|]. now rewrite IH.
Qed.

(** Without callbacks the loop of [fit] runs all the epochs it was asked for,
    whatever the validation logs are. *)
Lemma fit_epochs_no_callbacks (ls : list Layer) (cfg : CompileConfig)
  (batch_size epochs : nat) (X : list (list Q)) (y : ndarray)
  (X_val : list (list Q)) (y_val : ndarray) (remaining : nat) :
  forall (epoch : nat) (st : Weights * tf_state) (history : list (Q * Q)) (out : list string),
    fit_epochs ls cfg batch_size epochs [] X y X_val y_val remaining epoch st history out
    = (Nat.iter remaining (run_epoch ls cfg batch_size X y) st,
       ((history ++
         map (fun j => tf_evaluate ls cfg
                         (fst (Nat.iter (S j) (run_epoch ls cfg batch_size X y) st))
                         X_val y_val)
             (seq 0 remaining))%list,
        (out ++ map (fun j => epoch_header j epochs) (seq epoch remaining))%list)).
Proof.
  induction remaining as [|r IH]; intros epoch st history out.
  - simpl. now rewrite !app_nil_r.
  - cbn [fit_epochs existsb]. rewrite IH. rewrite iter_shift.
    f_equal. f_equal.
    + rewrite <- app_assoc. f_equal. cbn [seq map app]. f_equal.
      rewrite <- seq_shift, map_map.
      apply map_ext. intros j. now rewrite iter_shift.
    + rewrite <- app_assoc. reflexivity.
Qed.

End FitFacts.

(** ** Running a script step by step *)

Section Steps.
Context {R : NumpyRandom} {T : Tensorflow}.

Lemma world_ext (w1 w2 : World) :
  fs w1 = fs w2 -> stdout w1 = stdout w2 ->
  np_random w1 = np_random w2 -> tf_random w1 = tf_random w2 -> w1 = w2.
Proof. destruct w1, w2; cbn; intros; subst; reflexivity. Qed.

Lemma bind_raise {A B} (e : Exn) (k : A -> M B) (w : World) :
  bind (raise e) k w = (inl e, w).
Proof. reflexivity. Qed.

Lemma bind_ret {A B} (a : A) (k : A -> M B) (w : World) :
  bind (ret a) k w = k a w.
Proof. reflexivity. Qed.

Lemma bind_print {B} (line : string) (k : unit -> M B) (w : World) :
  bind (print line) k w = k tt (put_lines [line] w).
Proof. reflexivity. Qed.

Lemma bind_write_file {B} (path : string) (content : list Byte.byte)
  (k : unit -> M B) (w : World) :
  bind (write_file path content) k w = k tt (put_file path content w).
Proof. reflexivity. Qed.

Lemma bind_with_np_random {A B} (f : rng_state -> (Exn + A) * rng_state)
  (k : A -> M B) (w : World) (a : A) :
  fst (f (np_random w)) = inr a ->
  bind (with_np_random f) k w = k a (set_np_random (snd (f (np_random w))) w).
Proof.
  unfold bind, with_np_random. destruct (f (np_random w)) as [r s]. cbn [fst snd].
  intros ->. reflexivity.
Qed.

Lemma bind_lift_inr {A B} (a : A) (k : A -> M B) (w : World) :
  bind (lift (inr a)) k w = k a w.
Proof. reflexivity. Qed.

Lemma keras_fit_no_callbacks (m : KerasModel) (X : list (list Q)) (y : ndarray)
  (X_val : list (list Q)) (y_val : ndarray) (epochs batch_size : nat) (w : World) :
  keras_fit m X y X_val y_val epochs batch_size [] w
  = (inr ({| layers := layers m; compiled := compiled m;
             weights := fst (Nat.iter epochs
                               (run_epoch (layers m) (compiled m) batch_size X y)
                               (weights m, tf_random w)) |},
          map (fun j => tf_evaluate (layers m) (compiled m)
                          (fst (Nat.iter (S j)
                                  (run_epoch (layers m) (compiled m) batch_size X y)
                                  (weights m, tf_random w)))
                          X_val y_val)
              (seq 0 epochs)),
     set_tf_random
       (snd (Nat.iter epochs (run_epoch (layers m) (compiled m) batch_size X y)
                      (weights m, tf_random w)))
       (put_lines (map (fun j => epoch_header j epochs) (seq 0 epochs)) w)).
Proof.
  unfold keras_fit. rewrite fit_epochs_no_callbacks.
  destruct (Nat.iter epochs (run_epoch (layers m) (compiled m) batch_size X y)
                     (weights m, tf_random w)) as [wt s].
  reflexivity.
Qed.

Lemma bind_keras_fit_no_callbacks {B} (m : KerasModel) (X : list (list Q)) (y : ndarray)
  (X_val : list (list Q)) (y_val : ndarray) (epochs batch_size : nat)
  (k : KerasModel * list (Q * Q) -> M B) (w : World) :
  bind (keras_fit m X y X_val y_val epochs batch_size []) k w
  = let st := Nat.iter epochs (run_epoch (layers m) (compiled m) batch_size X y)
                       (weights m, tf_random w) in
    k ({| layers := layers m; compiled := compiled m; weights := fst st |},
       map (fun j => tf_evaluate (layers m) (compiled m)
                       (fst (Nat.iter (S j) (run_epoch (layers m) (compiled m) batch_size X y)
                                      (weights m, tf_random w)))
                       X_val y_val)
           (seq 0 epochs))
      (set_tf_random (snd st)
         (put_lines (map (fun j => epoch_header j epochs) (seq 0 epochs)) w)).
Proof.
  unfold bind, keras_fit. rewrite fit_epochs_no_callbacks.
  cbv zeta.
  destruct (Nat.iter epochs (run_epoch (layers m) (compiled m) batch_size X y)
                     (weights m, tf_random w)) as [wt s].
  reflexivity.
Qed.

Lemma bind_keras_evaluate {B} (m : KerasModel) (X : list (list Q)) (y : ndarray)
  (k : Q * Q -> M B) (w : World) :
  bind (keras_evaluate m X y) k w
  = k (tf_evaluate (layers m) (compiled m) (weights m) X y) w.
Proof. reflexivity. Qed.

Lemma bind_keras_save {B} (m : KerasModel) (path : string) (k : unit -> M B) (w : World) :
  bind (keras_save m path) k w
  = k tt (put_file path (keras_serialize (layers m) (compiled m) (weights m)) w).
Proof. reflexivity. Qed.

Lemma bind_tflite_run {B} (path : string) (input : list (list Q))
  (content : list Byte.byte) (k : list (list Q) -> M B) (w : World) :
  fs w path = Some content ->
  bind (tflite_run path input) k w = k (tflite_invoke content input) w.
Proof. intros H. unfold tflite_run, read_file, bind, ret. now rewrite H. Qed.

Lemma bind_create_stress_model {B} (k : KerasModel -> M B) (w : World) :
  bind ConvertToTflite.create_stress_model k w
  = k {| layers := ConvertToTflite.stress_model_layers;
         compiled := ConvertToTflite.stress_model_compile;
         weights := fst (tf_initialize ConvertToTflite.stress_model_layers (tf_random w)) |}
      (set_tf_random (snd (tf_initialize ConvertToTflite.stress_model_layers (tf_random w))) w).
Proof.
  unfold ConvertToTflite.create_stress_model, with_tf_random, ret, bind.
  destruct (tf_initialize ConvertToTflite.stress_model_layers (tf_random w)); reflexivity.
Qed.

Lemma for_each_print {A} (l : list A) (line : A -> string) (w : World) :
  for_each l (fun x => print (line x)) w = (inr tt, put_lines (map line l) w).
Proof.
  revert w. induction l as [|x l IH]; intros w.
  - unfold put_lines. cbn. rewrite app_nil_r. now destruct w.
  - cbn [for_each map]. rewrite bind_print, IH.
    unfold put_lines. cbn [fs stdout np_random tf_random].
    now rewrite <- app_assoc.
Qed.

End Steps.

Ltac simpl_world :=
  cbn [fs stdout np_random tf_random put_lines put_file set_np_random set_tf_random].

(** ** The run of [train_and_convert] *)

Section ConvertRun.
Context {R : NumpyRandom} {T : Tensorflow} {P : PythonText}.

Lemma generate_training_data_seeded (n_samples : nat) (s0 : rng_state) :
  ConvertToTflite.generate_training_data n_samples s0
  = ConvertToTflite.generate_training_data n_samples (rng_seed 42).
Proof. reflexivity. Qed.

Lemma train_and_convert_run (w : World) :
  ConvertToTflite.train_and_convert w =
  match tflite_invoke (compact_model w) ConvertToTflite.test_input with
  | (p :: _) :: _ =>
      (inr ConvertToTflite.tflite_path,
       {| fs := convert_disk w;
          stdout := (convert_report w
                     ++ [("Sample prediction: " ++ format_fixed 4 p)%string])%list;
          np_random := snd (ConvertToTflite.generate_training_data 2000 (np_random w));
          tf_random := snd (state_after 50 w) |})
  | _ =>
      (inl IndexError,
       {| fs := convert_disk w;
          stdout := convert_report w;
          np_random := snd (ConvertToTflite.generate_training_data 2000 (np_random w));
          tf_random := snd (state_after 50 w) |})
  end.
Proof.
  destruct (generate_training_data_returns 2000 (rng_seed 42) ltac:(lia)) as (t & _ & Hgen).
  unfold convert_report, convert_disk, compact_model, state_after, epoch_pass,
    training_set, validation_set, training_data.
  unfold ConvertToTflite.train_and_convert.
  rewrite bind_print.
  rewrite (bind_with_np_random _ _ _ (network_features 2000,
                                      greater_than (network_score 2000) t))
    by (simpl_world; rewrite (generate_training_data_seeded 2000 (np_random w));
        exact Hgen).
  simpl_world.
  rewrite !(generate_training_data_seeded 2000 (np_random w)).
  rewrite Hgen. cbn [returned].
  set (X := network_features 2000). set (y := greater_than (network_score 2000) t).
  set (s := snd (ConvertToTflite.generate_training_data 2000 (rng_seed 42))).
  destruct (ConvertToTflite.holdout_split X y) as [[X_train X_test] [y_train y_test]].
  cbn [fst snd].
  rewrite bind_print, bind_create_stress_model, bind_print.
  rewrite bind_keras_fit_no_callbacks.
  cbv zeta. cbn [layers compiled weights].
  simpl_world. rewrite <- surjective_pairing.
  set (st := Nat.iter 50 _ _).
  rewrite bind_keras_evaluate. cbn [layers compiled weights].
  destruct (tf_evaluate _ _ (fst st) X_test y_test) as [loss accuracy]. cbn [snd].
  rewrite bind_print, bind_keras_save, !bind_print, bind_write_file, !bind_print.
  cbn [layers compiled weights].
  rewrite (bind_tflite_run _ _
             (tflite_convert [DEFAULT] ConvertToTflite.stress_model_layers (fst st)))
    by (simpl_world; reflexivity).
  destruct (tflite_invoke _ ConvertToTflite.test_input) as [|[|p row] rows];
    unfold item00; rewrite ?bind_raise, ?bind_ret, ?bind_print; unfold ret;
    (f_equal; apply world_ext; simpl_world;
     [reflexivity | rewrite <- ?app_assoc; reflexivity | reflexivity | reflexivity]).
Qed.

(** What the run leaves behind, read off [train_and_convert_run]. *)
Lemma train_and_convert_disk (w : World) :
  fs (snd (ConvertToTflite.train_and_convert w)) = convert_disk w.
Proof.
  rewrite train_and_convert_run.
  destruct (tflite_invoke _ _) as [|[|p row] rows]; reflexivity.
Qed.

Lemma train_and_convert_report (w : World) :
  exists tail, stdout (snd (ConvertToTflite.train_and_convert w))
               = (convert_report w ++ tail)%list.
Proof.
  rewrite train_and_convert_run.
  destruct (tflite_invoke _ _) as [|[|p row] rows]; cbn [snd stdout].
  - exists []. now rewrite app_nil_r.
  - exists []. now rewrite app_nil_r.
  - eexists. reflexivity.
Qed.

End ConvertRun.

(** ** Sizes of the batches *)

Lemma batches_full {A} (steps batch_size : nat) (l : list A) :
  length l = (steps * batch_size)%nat ->
  length (batches steps batch_size l) = steps
  /\ Forall (fun b => length b = batch_size) (batches steps batch_size l)
  /\ concat (batches steps batch_size l) = l.
Proof.
  revert l. induction steps as [|k IH]; intros l Hl; cbn [batches].
  - destruct l; [|simpl in Hl; lia]. repeat split. constructor.
  - destruct (IH (skipn batch_size l)) as (H1 & H2 & H3).
    { rewrite length_skipn. lia. }
    repeat split.
    + cbn [length]. now rewrite H1.
    + constructor; [rewrite length_firstn; lia | exact H2].
    + cbn [concat]. rewrite H3. apply firstn_skipn.
Qed.

Section TrainingSizes.
Context {R : NumpyRandom} {T : Tensorflow}.

Lemma training_set_lengths :
  length (fst training_set) = 1600%nat /\ length (snd training_set) = 1600%nat
  /\ length (fst validation_set) = 400%nat /\ length (snd validation_set) = 400%nat.
Proof.
  destruct (generate_training_data_returns 2000 (rng_seed 42) ltac:(lia)) as (t & _ & Hgen).
  destruct (generate_training_data_lengths 2000 (rng_seed 42) _ _ Hgen) as [HX Hy].
  unfold training_set, validation_set, training_data. rewrite Hgen. cbn [returned].
  rewrite holdout_split_eq, HX. cbn [fst snd].
  change (4 * 2000 / 5)%nat with 1600%nat.
  rewrite !length_firstn, !length_skipn, HX, Hy.
  repeat split; reflexivity.
Qed.

(** Every epoch of the run cuts its 1600 shuffled training rows into 50
    batches of 32. *)
Lemma epoch_batches (s : tf_state) :
  let idx := fst (tf_shuffle (length (fst training_set)) s) in
  let bs := batches (steps_per_epoch (length (fst training_set)) 32) 32
                    (take_rows idx (fst training_set)) in
  length bs = 50%nat /\ Forall (fun b => length b = 32%nat) bs.
Proof.
  intros idx bs.
  destruct training_set_lengths as (HX & _).
  assert (Hidx : length idx = 1600%nat).
  { subst idx. rewrite <- (Permutation_length (tf_shuffle_perm _ s)).
    now rewrite length_seq. }
  subst bs. rewrite HX.
  change (steps_per_epoch 1600 32) with 50%nat.
  destruct (batches_full 50 32 (take_rows idx (fst training_set))) as (H1 & H2 & _).
  { unfold take_rows. rewrite length_map, Hidx. reflexivity. }
  split; assumption.
Qed.

End TrainingSizes.

(** ** C6: fifty epochs, then the model is saved *)

(** C6: for every TensorFlow behaviour (so whatever the losses are) and from
    every world, [train_and_convert] trains for exactly 50 epochs with batch
    size 32 and saves afterwards:
    - [fit] with these arguments and no callback returns a history of 50
      entries and the weights reached by 50 passes;
    - the file stress_model.keras holds the weights reached by 50 passes over
      the training set from the initial weights;
    - the 50 epoch headers are printed, in order, before the line that
      reports the save;
    - each pass cuts the 1600 training rows into 50 batches of 32. *)
Theorem C6_fifty_epochs_then_saved (R : NumpyRandom) (T : Tensorflow) (P : PythonText)
  (w : World) :
  let w' := snd (ConvertToTflite.train_and_convert w) in
  let pass := run_epoch ConvertToTflite.stress_model_layers
                        ConvertToTflite.stress_model_compile
                        32 (fst training_set) (snd training_set) in
  (forall (m : KerasModel) X y X_val y_val (w0 : World),
      exists m' history w1,
        keras_fit m X y X_val y_val 50 32 [] w0 = (inr (m', history), w1)
        /\ length history = 50%nat
        /\ weights m'
           = fst (Nat.iter 50 (run_epoch (layers m) (compiled m) 32 X y)
                           (weights m, tf_random w0)))
  /\ fs w' "stress_model.keras"
     = Some (keras_serialize ConvertToTflite.stress_model_layers
               ConvertToTflite.stress_model_compile
               (fst (Nat.iter 50 pass
                       (tf_initialize ConvertToTflite.stress_model_layers (tf_random w)))))
  /\ (exists accuracy_line tail,
         stdout w'
         = (stdout w
            ++ ["Generating training data..."; "Creating TensorFlow model...";
                "Training model..."]
            ++ map (fun j => epoch_header j 50) (seq 0 50)
            ++ [accuracy_line; "Saved Keras model to stress_model.keras"]
            ++ tail)%list)
  /\ length (fst training_set) = 1600%nat
  /\ (forall s : tf_state,
         let bs := batches (steps_per_epoch (length (fst training_set)) 32) 32
                           (take_rows (fst (tf_shuffle (length (fst training_set)) s))
                                      (fst training_set)) in
         length bs = 50%nat /\ Forall (fun b => length b = 32%nat) bs).
Proof.
  intros w' pass. split; [|split; [|split; [|split]]].
  - intros m X y X_val y_val w0.
    rewrite keras_fit_no_callbacks.
    eexists. eexists. eexists. split; [reflexivity|].
    split; [now rewrite length_map, length_seq | reflexivity].
  - subst w'. rewrite train_and_convert_disk. reflexivity.
  - subst w'. destruct (train_and_convert_report w) as [tail Htail].
    rewrite Htail. unfold convert_report.
    eexists. eexists. rewrite <- !app_assoc. cbn [app]. reflexivity.
  - apply training_set_lengths.
  - intros s. apply epoch_batches.
Qed.

(** The loop of [fit] does stop early when a callback asks for it: with a
    callback that always stops, one epoch is run. *)
Example fit_stops_on_callback :
  fit_epochs (T := Toy.tensorflow) [] ConvertToTflite.stress_model_compile 32 50
             [fun _ _ => true] [] [] [] [] 50 0 (0%nat, tt) [] []
  = ((0%nat, tt), ([(0%Q, 0%Q)], ["Epoch 1/50"])).
Proof. reflexivity. Qed.

(** ** C7: the sample prediction *)

(** On the toy machine the interpreter answers 2 on the sample input. *)
Lemma toy_sample_prediction :
  @tflite_invoke Toy.tensorflow
    (compact_model (R := Toy.random) (T := Toy.tensorflow) Toy.empty_world)
    ConvertToTflite.test_input
  = [[2%Q]].
Proof. reflexivity. Qed.

Lemma toy_train_and_convert_completes :
  fst (ConvertToTflite.train_and_convert (P := Toy.text) Toy.empty_world)
  = inr ConvertToTflite.tflite_path.
Proof.
  rewrite train_and_convert_run, toy_sample_prediction. reflexivity.
Qed.

(** C7, as stated, fails: the run makes no check on the prediction.  With an
    interpreter that answers 2 on the sample input, [train_and_convert] runs
    to completion all the same. *)
Lemma C7_counterexample : ~ verifier_asserts_probability.
Proof.
  intros H.
  pose proof toy_train_and_convert_completes as Hrun.
  destruct (ConvertToTflite.train_and_convert (P := Toy.text) Toy.empty_world)
    as [r w'] eqn:E.
  cbn [fst] in Hrun. subst r.
  destruct (H Toy.random Toy.tensorflow Toy.text Toy.empty_world w' _ E)
    as (p & rest & rows & Hout & Hp).
  rewrite toy_sample_prediction in Hout. injection Hout as Hp2 _ _. subst p.
  destruct Hp as [_ Hp]. revert Hp. vm_compute. intros Hp. apply Hp. reflexivity.
Qed.

(** C7 (amended): after conversion the run reads the compact model back from
    stress_model.tflite and feeds it the one sample [[0.5, 0.3, 0.7, -0.2]];
    whatever number p comes out, the run completes, returns the path of the
    compact model and ends its report with p: nothing is checked. *)
Theorem C7_sample_prediction_is_reported (R : NumpyRandom) (T : Tensorflow) (P : PythonText)
  (w : World) (p : Q) (rest : list Q) (rows : list (list Q)) :
  tflite_invoke (compact_model w) ConvertToTflite.test_input = (p :: rest) :: rows ->
  ConvertToTflite.test_input = [[0.5; 0.3; 0.7; -0.2]%Q]
  /\ fs (snd (ConvertToTflite.train_and_convert w)) ConvertToTflite.tflite_path
     = Some (compact_model w)
  /\ fst (ConvertToTflite.train_and_convert w) = inr ConvertToTflite.tflite_path
  /\ stdout (snd (ConvertToTflite.train_and_convert w))
     = (convert_report w ++ [("Sample prediction: " ++ format_fixed 4 p)%string])%list.
Proof.
  intros Hout. split; [reflexivity|]. split.
  - rewrite train_and_convert_disk. reflexivity.
  - rewrite train_and_convert_run, Hout. split; reflexivity.
Qed.

(** On the toy machine the run completes and reports the prediction 2. *)
Lemma C7_sample_prediction_is_reported_witness :
  fst (ConvertToTflite.train_and_convert (P := Toy.text) Toy.empty_world)
  = inr ConvertToTflite.tflite_path
  /\ stdout (snd (ConvertToTflite.train_and_convert (P := Toy.text) Toy.empty_world))
     = (convert_report (P := Toy.text) Toy.empty_world ++ ["Sample prediction: 2/1"])%list.
Proof.
  destruct (C7_sample_prediction_is_reported
              Toy.random Toy.tensorflow Toy.text Toy.empty_world 2%Q [] [] eq_refl)
    as (_ & _ & Hrun & Hout).
  split; [exact Hrun | exact Hout].
Defined.

(** ** C9: the compact-network script and the ensemble file *)

Lemma toy_main_stops :
  fst (ConvertToTflite.main (R := Toy.random) (S := Toy.sklearn) (T := Toy.tensorflow)
                            (P := Toy.text) Toy.empty_world)
  = inl (FileNotFoundError "stress_rf_model.pkl").
Proof. reflexivity. Qed.

(** C9, as stated, fails: on a machine without stress_rf_model.pkl the
    procedure [train_and_convert] would complete, but the script stops at its
    first statement with FileNotFoundError. *)
Lemma C9_counterexample : ~ compact_script_independent.
Proof.
  intros H.
  specialize (H Toy.random Toy.sklearn Toy.tensorflow Toy.text Toy.empty_world
                toy_train_and_convert_completes).
  rewrite toy_main_stops in H. discriminate H.
Qed.

(** C9 (amended): the compact-network script takes no argument, but it first
    loads stress_rf_model.pkl: without that file it stops with
    FileNotFoundError, with an unreadable one with an unpickling error, in both
    cases before anything is printed, trained or written; with a loadable one
    it goes on exactly as [train_and_convert] does, whatever model the file
    holds. *)
Theorem C9_compact_script_loads_ensemble_file
  (R : NumpyRandom) (S : Sklearn) (T : Tensorflow) (P : PythonText) (w : World) :
  ConvertToTflite.main w =
  match fs w "stress_rf_model.pkl" with
  | None => (inl (FileNotFoundError "stress_rf_model.pkl"), w)
  | Some content =>
      match joblib_loads content with
      | None => (inl (UnpicklingError "stress_rf_model.pkl"), w)
      | Some _ => ConvertToTflite.train_and_convert w
      end
  end.
Proof.
  unfold ConvertToTflite.main, ConvertToTflite.joblib_load, read_file, bind at 1 2.
  destruct (fs w "stress_rf_model.pkl") as [content|]; [|reflexivity].
  destruct (joblib_loads content); reflexivity.
Qed.

(** ** C5: the layers of the compact network *)

(** C5, as stated, fails: the network has four dense layers, not three, and
    its topology is not the seven-layer one. *)
Lemma C5_counterexample :
  topology ConvertToTflite.stress_model_layers <> spec_topology
  /\ length (filter is_dense ConvertToTflite.stress_model_layers) <> 3%nat.
Proof. split; discriminate. Qed.

(** C5 (amended): the network takes 4 features and stacks
    dense(32, relu), normalize, dropout(0.3), dense(16, relu), normalize,
    dropout(0.2), dense(8, relu), dense(1, sigmoid): four dense layers, the
    last of which is the sigmoid output of width 1; [create_stress_model]
    returns a model with exactly these layers from every world. *)
Theorem C5_compact_network_topology (R : NumpyRandom) (T : Tensorflow) (w : World) :
  ConvertToTflite.stress_model_layers
  = [InputLayer 4; Dense 32 relu; BatchNormalization; Dropout 0.3%Q;
     Dense 16 relu; BatchNormalization; Dropout 0.2%Q; Dense 8 relu; Dense 1 sigmoid]
  /\ topology ConvertToTflite.stress_model_layers
     = [KDense; KNormalize; KDropout; KDense; KNormalize; KDropout; KDense; KDense]
  /\ length (filter is_dense ConvertToTflite.stress_model_layers) = 4%nat
  /\ last ConvertToTflite.stress_model_layers BatchNormalization = Dense 1 sigmoid
  /\ (forall width, output_width ConvertToTflite.stress_model_layers width = 1%nat)
  /\ (exists m w',
         ConvertToTflite.create_stress_model w = (inr m, w')
         /\ layers m = ConvertToTflite.stress_model_layers
         /\ compiled m = {| optimizer := Adam 0.001%Q;
                            loss := "binary_crossentropy";
                            metrics := ["accuracy"] |}).
Proof.
  repeat split.
  pose proof (bind_create_stress_model ret w) as H. unfold bind, ret in H.
  destruct (ConvertToTflite.create_stress_model w) as [[e|m] w'].
  - discriminate H.
  - exists m, w'. split; [reflexivity|].
    injection H as Hm _. subst m. split; reflexivity.
Qed.

(** ** The run of [train_model] *)

Lemma df_drop_label (c0 c1 c2 c3 c4 : ndarray) :
  df_drop "is_stressed"
    [("typing_speed", c0); ("backspace_ratio", c1); ("touch_pressure", c2);
     ("session_length", c3); ("is_stressed", c4)]
  = [("typing_speed", c0); ("backspace_ratio", c1); ("touch_pressure", c2);
     ("session_length", c3)].
Proof. reflexivity. Qed.

Lemma df_get_label (c0 c1 c2 c3 c4 : ndarray) :
  df_get "is_stressed"
    [("typing_speed", c0); ("backspace_ratio", c1); ("touch_pressure", c2);
     ("session_length", c3); ("is_stressed", c4)]
  = c4.
Proof. reflexivity. Qed.

Section EnsembleFacts.
Context {R : NumpyRandom} {S : Sklearn}.

(** The features handed to the forest are the raw draws, untouched. *)
Lemma ensemble_features_raw :
  ensemble_features
  = [("typing_speed", fst (fst (raw_draws 1000)));
     ("backspace_ratio", snd (fst (raw_draws 1000)));
     ("touch_pressure", fst (snd (raw_draws 1000)));
     ("session_length", snd (snd (raw_draws 1000)))].
Proof.
  destruct (generate_synthetic_data_returns 1000 (rng_seed 42) ltac:(lia)) as (t & _ & Hgen).
  unfold ensemble_features, ensemble_frame.
  rewrite Hgen. cbn [returned]. apply df_drop_label.
Qed.

(** The labels handed to the forest are those of the score of the raw draws. *)
Lemma ensemble_labels_raw :
  TrainModel.label
    (TrainModel.stress_score (fst (fst (raw_draws 1000))) (snd (fst (raw_draws 1000)))
                             (fst (snd (raw_draws 1000))) (snd (snd (raw_draws 1000))))
  = inr ensemble_labels.
Proof.
  destruct (generate_synthetic_data_returns 1000 (rng_seed 42) ltac:(lia)) as (t & Ht & Hgen).
  unfold ensemble_labels, ensemble_frame.
  rewrite Hgen. cbn [returned]. rewrite df_get_label.
  apply label_returns. exact Ht.
Qed.

(** The call of [generate_synthetic_data] in [train_model] returns the frame. *)
Lemma ensemble_frame_returned (s0 : rng_state) :
  fst (TrainModel.generate_synthetic_data 1000 s0) = inr ensemble_frame.
Proof.
  destruct (generate_synthetic_data_returns 1000 (rng_seed 42) ltac:(lia)) as (t & _ & Hgen).
  unfold ensemble_frame. change (TrainModel.generate_synthetic_data 1000 s0)
    with (TrainModel.generate_synthetic_data 1000 (rng_seed 42)).
  rewrite Hgen. reflexivity.
Qed.

Lemma ensemble_sizes :
  df_len ensemble_features = 1000%nat /\ length ensemble_features = 4%nat
  /\ length ensemble_labels = 1000%nat.
Proof.
  rewrite ensemble_features_raw.
  destruct (raw_draws_lengths 1000) as (H0 & H1 & H2 & H3).
  split; [exact H0|]. split; [reflexivity|].
  destruct (generate_synthetic_data_returns 1000 (rng_seed 42) ltac:(lia)) as (t & _ & Hgen).
  unfold ensemble_labels, ensemble_frame.
  rewrite Hgen. cbn [returned]. rewrite df_get_label, length_greater_than.
  apply ensemble_score_length.
Qed.

Lemma train_test_split_thousand (X : DataFrame) (y : ndarray) :
  df_len X = 1000%nat ->
  train_test_split X y 0.2 42
  = inr ((df_take ensemble_train_rows X, df_take ensemble_test_rows X),
         (take ensemble_train_rows y, take ensemble_test_rows y)).
Proof.
  intros H. unfold train_test_split. rewrite H.
  change (Z.to_nat (Qceiling (0.2 * inject_Z (Z.of_nat 1000)))) with 200%nat.
  change (1000 - 200)%nat with 800%nat.
  reflexivity.
Qed.

Lemma ensemble_rows :
  length ensemble_train_rows = 800%nat /\ length ensemble_test_rows = 200%nat
  /\ Permutation (ensemble_test_rows ++ ensemble_train_rows)%list (seq 0 1000).
Proof.
  unfold ensemble_train_rows, ensemble_test_rows.
  pose proof (sk_permutation_perm 42 1000) as Hp.
  assert (Hlen : length (sk_permutation 42 1000) = 1000%nat).
  { rewrite <- (Permutation_length Hp). apply length_seq. }
  set (perm := sk_permutation 42 1000) in *.
  split; [rewrite length_firstn, length_skipn, Hlen; reflexivity|].
  split; [rewrite length_firstn, Hlen; reflexivity|].
  rewrite (firstn_all2 (n := 800) (skipn 200 perm))
    by (rewrite length_skipn, Hlen; apply Nat.eq_le_incl; reflexivity).
  rewrite firstn_skipn. now apply Permutation_sym.
Qed.

End EnsembleFacts.

Section EnsembleRunFacts.
Context {R : NumpyRandom} {S : Sklearn} {T : Tensorflow} {P : PythonText}.

Lemma generate_synthetic_data_seeded (n_samples : nat) (s0 : rng_state) :
  TrainModel.generate_synthetic_data n_samples s0
  = TrainModel.generate_synthetic_data n_samples (rng_seed 42).
Proof. reflexivity. Qed.

Lemma shape_string_features : TrainModel.shape_string ensemble_features = "(1000, 4)".
Proof.
  unfold TrainModel.shape_string.
  destruct ensemble_sizes as (H1 & H2 & _). rewrite H1, H2. reflexivity.
Qed.

Lemma df_columns_features :
  df_columns ensemble_features
  = ["typing_speed"; "backspace_ratio"; "touch_pressure"; "session_length"].
Proof. rewrite ensemble_features_raw. reflexivity. Qed.

Lemma train_model_run (w : World) :
  TrainModel.train_model w =
  (inr tt,
   {| fs := fun p => if String.eqb p "stress_rf_model.pkl"
                     then Some (joblib_dumps ensemble_model) else fs w p;
      stdout := ensemble_report w;
      np_random := snd (TrainModel.generate_synthetic_data 1000 (np_random w));
      tf_random := tf_random w |}).
Proof.
  unfold TrainModel.train_model.
  rewrite bind_print.
  rewrite (bind_with_np_random _ _ _ ensemble_frame) by apply ensemble_frame_returned.
  simpl_world.
  fold ensemble_features. fold ensemble_labels.
  rewrite bind_print, shape_string_features.
  rewrite (train_test_split_thousand ensemble_features ensemble_labels)
    by apply ensemble_sizes.
  rewrite bind_lift_inr. cbv beta iota zeta.
  rewrite !bind_print, bind_write_file, !bind_print, for_each_print.
  rewrite df_columns_features.
  f_equal. apply world_ext; simpl_world.
  - reflexivity.
  - unfold ensemble_report, ensemble_model. cbv zeta.
    rewrite <- !app_assoc. reflexivity.
  - reflexivity.
  - reflexivity.
Qed.

End EnsembleRunFacts.

(** ** C4: the ensemble trainer *)

(** C4: [train_model] works on the raw (non-normalized) draws; it splits the
    1000 samples with [test_size=0.2] and split seed 42 into 800 training rows
    and 200 test rows that together are all the rows; it fits a forest of 100
    trees of depth at most 10 on the training part; it reports the accuracy
    and the classification report of the forest's predictions on the test
    part, then the feature importances; and it writes the fitted forest to
    stress_rf_model.pkl.  The run completes from every world. *)
Theorem C4_ensemble_trainer (R : NumpyRandom) (S : Sklearn) (T : Tensorflow)
  (P : PythonText) (w : World) :
  let X := ensemble_features in
  let y := ensemble_labels in
  let X_train := df_take ensemble_train_rows X in
  let X_test := df_take ensemble_test_rows X in
  let y_train := take ensemble_train_rows y in
  let y_test := take ensemble_test_rows y in
  X = [("typing_speed", fst (fst (raw_draws 1000)));
       ("backspace_ratio", snd (fst (raw_draws 1000)));
       ("touch_pressure", fst (snd (raw_draws 1000)));
       ("session_length", snd (snd (raw_draws 1000)))]
  /\ train_test_split X y 0.2 42 = inr ((X_train, X_test), (y_train, y_test))
  /\ df_len X_train = 800%nat /\ df_len X_test = 200%nat
  /\ length y_train = 800%nat /\ length y_test = 200%nat
  /\ Permutation (ensemble_test_rows ++ ensemble_train_rows)%list (seq 0 1000)
  /\ ensemble_model
     = rf_fit {| n_estimators := 100; random_state := 42; max_depth := Some 10%nat |}
              X_train y_train
  /\ TrainModel.train_model w
     = (inr tt,
        {| fs := fun p => if String.eqb p "stress_rf_model.pkl"
                          then Some (joblib_dumps ensemble_model) else fs w p;
           stdout := ensemble_report w;
           np_random := snd (TrainModel.generate_synthetic_data 1000 (np_random w));
           tf_random := tf_random w |})
  /\ ensemble_report w
     = (stdout w
        ++ ["Generating synthetic data...";
            "Dataset shape: (1000, 4)";
            "Training model...";
            ("Model Accuracy: "
               ++ format_fixed 4
                    (accuracy_score y_test (rf_predict ensemble_model X_test)))%string;
            (nl ++ "Classification Report:")%string;
            classification_report y_test (rf_predict ensemble_model X_test);
            "Model saved to stress_rf_model.pkl";
            (nl ++ "Feature Importances:")%string]
        ++ map (fun p => (fst p ++ ": " ++ format_fixed 4 (snd p))%string)
               (combine ["typing_speed"; "backspace_ratio"; "touch_pressure";
                         "session_length"]
                        (rf_feature_importances ensemble_model)))%list.
Proof.
  intros X y X_train X_test y_train y_test.
  destruct ensemble_rows as (Htrain & Htest & Hperm).
  split; [apply ensemble_features_raw|].
  split; [apply train_test_split_thousand, ensemble_sizes|].
  split; [subst X_train X; rewrite ensemble_features_raw; cbn [df_take map df_len fst snd];
          unfold take; now rewrite length_map|].
  split; [subst X_test X; rewrite ensemble_features_raw; cbn [df_take map df_len fst snd];
          unfold take; now rewrite length_map|].
  split; [subst y_train; unfold take; now rewrite length_map|].
  split; [subst y_test; unfold take; now rewrite length_map|].
  split; [exact Hperm|].
  split; [reflexivity|].
  split; [apply train_model_run | reflexivity].
Qed.

(** After the ensemble script has run, the file the compact-network script
    loads is on the disk. *)
Lemma ensemble_script_leaves_model_file (R : NumpyRandom) (S : Sklearn) (T : Tensorflow)
  (P : PythonText) (w : World) :
  fs (snd (TrainModel.main w)) "stress_rf_model.pkl" = Some (joblib_dumps ensemble_model).
Proof.
  unfold TrainModel.main. rewrite train_model_run. reflexivity.
Qed.

(** * Further properties of the two scripts *)

(** ** Shape of the generated data *)

Lemma column_stack4_rows (c0 c1 c2 c3 : ndarray) :
  Forall (fun row => length row = 4%nat) (column_stack4 c0 c1 c2 c3).
Proof.
  revert c1 c2 c3.
  induction c0 as [|x0 c0 IH]; intros [|x1 c1] [|x2 c2] [|x3 c3];
    cbn [column_stack4]; constructor; [reflexivity | apply IH].
Qed.

(** X3: whatever the generator draws, for at least one sample
    [generate_synthetic_data(n)] returns a rectangular frame: the five columns
    typing_speed, backspace_ratio, touch_pressure, session_length,
    is_stressed, in this order, each with n entries, and every entry of
    is_stressed is 0 or 1.  Without a sample the call raises [IndexError]. *)
Theorem X3_synthetic_frame_shape (R : NumpyRandom) (n_samples : nat) (s0 : rng_state) :
  (0 < n_samples)%nat ->
  fst (TrainModel.generate_synthetic_data 0 s0) = inl IndexError
  /\ exists df,
       fst (TrainModel.generate_synthetic_data n_samples s0) = inr df
       /\ df_columns df
          = ["typing_speed"; "backspace_ratio"; "touch_pressure"; "session_length";
             "is_stressed"]
       /\ Forall (fun c => length (snd c) = n_samples) df
       /\ Forall (fun l => l = 0%Q \/ l = 1%Q) (df_get "is_stressed" df).
Proof.
  intros Hn. split; [apply generate_synthetic_data_raises|].
  destruct (generate_synthetic_data_returns n_samples s0 Hn) as (t & _ & Hgen).
  eexists. split; [exact Hgen|].
  destruct (raw_draws_lengths n_samples) as (H0 & H1 & H2 & H3).
  split; [reflexivity|]. split.
  - repeat constructor; cbn [snd]; try assumption.
    rewrite length_greater_than. apply ensemble_score_length.
  - rewrite df_get_label. apply greater_than_binary.
Qed.

(** Three samples drawn by the toy generator. *)
Lemma X3_synthetic_frame_shape_witness :
  exists df,
    fst (TrainModel.generate_synthetic_data (R := Toy.random) 3 0%nat) = inr df
    /\ Forall (fun c => length (snd c) = 3%nat) df.
Proof.
  destruct (X3_synthetic_frame_shape Toy.random 3 0%nat ltac:(lia))
    as (_ & df & Hdf & _ & Hlen & _).
  exists df. split; assumption.
Defined.

(** X4: whatever the generator draws, for at least one sample
    [generate_training_data(n)] returns a matrix of n rows of 4 values and a
    vector of n labels, each 0 or 1.  Without a sample the call raises
    [IndexError]. *)
Theorem X4_training_data_shape (R : NumpyRandom) (n_samples : nat) (s0 : rng_state) :
  (0 < n_samples)%nat ->
  fst (ConvertToTflite.generate_training_data 0 s0) = inl IndexError
  /\ exists X y,
       fst (ConvertToTflite.generate_training_data n_samples s0) = inr (X, y)
       /\ length X = n_samples
       /\ Forall (fun row => length row = 4%nat) X
       /\ length y = n_samples
       /\ Forall (fun l => l = 0%Q \/ l = 1%Q) y.
Proof.
  intros Hn. split; [apply generate_training_data_raises|].
  destruct (generate_training_data_returns n_samples s0 Hn) as (t & _ & Hgen).
  destruct (generate_training_data_lengths n_samples s0 _ _ Hgen) as [HX Hy].
  eexists. eexists. split; [exact Hgen|].
  split; [exact HX|]. split; [apply column_stack4_rows|].
  split; [exact Hy | apply greater_than_binary].
Qed.

(** Three samples drawn by the toy generator. *)
Lemma X4_training_data_shape_witness :
  exists X y,
    fst (ConvertToTflite.generate_training_data (R := Toy.random) 3 0%nat) = inr (X, y)
    /\ length X = 3%nat /\ length y = 3%nat.
Proof.
  destruct (X4_training_data_shape Toy.random 3 0%nat ltac:(lia))
    as (_ & X & y & Hgen & HX & _ & Hy & _).
  exists X, y. repeat split; assumption.
Defined.

(** X5: for one sample count the two generators work on the same draws: they
    return together or raise together, and when they return, the matrix of
    [generate_training_data] is, column by column, the normalized image of
    the four feature columns of [generate_synthetic_data]. *)
Theorem X5_same_draws_in_both_pipelines (R : NumpyRandom) (n_samples : nat)
  (s0 s0' : rng_state) :
  match fst (TrainModel.generate_synthetic_data n_samples s0),
        fst (ConvertToTflite.generate_training_data n_samples s0') with
  | inr df, inr (X, _) =>
      X = column_stack4
            (ConvertToTflite.normalize_typing_speed (df_get "typing_speed" df))
            (ConvertToTflite.normalize_backspace_ratio (df_get "backspace_ratio" df))
            (ConvertToTflite.normalize_touch_pressure (df_get "touch_pressure" df))
            (ConvertToTflite.normalize_session_length (df_get "session_length" df))
  | inl e, inl e' => e = e' /\ n_samples = 0%nat
  | _, _ => False
  end.
Proof.
  destruct n_samples as [|n].
  - rewrite generate_synthetic_data_raises, generate_training_data_raises. split; reflexivity.
  - destruct (generate_synthetic_data_returns (S n) s0 ltac:(lia)) as (t & _ & Hs).
    destruct (generate_training_data_returns (S n) s0' ltac:(lia)) as (t' & _ & Ht).
    rewrite Hs, Ht. reflexivity.
Qed.

(** ** Prevalence of the positive label in the generated data *)

Lemma positives_rank_le (score : ndarray) (t : Q) :
  percentile score 70 = inr t -> (Z.of_nat (length score) <= 2 ^ 48)%Z ->
  let n := length score in
  (positives (greater_than score t) <= n - 7 * (n - 1) / 10)%nat
  /\ ((7 * (n - 1)) mod 10 <> 0 ->
      positives (greater_than score t) <= n - 1 - 7 * (n - 1) / 10)%nat.
Proof.
  intros Ht Hbig n.
  destruct (percentile_70_bounds score t Ht) as (Hn & _).
  destruct (positives_bounds score t Ht) as [Hup _].
  destruct (percentile_rank_bounds (length score) Hn Hbig) as [Hjk Hexact].
  fold n in Hup, Hjk, Hexact.
  assert (Hkn : (7 * (n - 1) / 10 < n)%nat).
  { apply Nat.Div0.div_lt_upper_bound. lia. }
  split; [lia|]. intros Hne. rewrite (Hexact Hne) in Hup. exact Hup.
Qed.

(** X6: whatever the generator draws, within the range of scores of the
    model, both generators label at most n - floor(0.7 (n - 1)) of their
    n samples 1 (n at most 2^48), and at most n - 1 - floor(0.7 (n - 1)) when
    0.7 (n - 1) is not an integer: at most 300 of the 1000 samples of the
    ensemble pipeline and at most 600 of the 2000 samples of the network
    pipeline. *)
Theorem X6_positive_share_bounded (R : NumpyRandom) (s0 : rng_state) :
  (forall n_samples,
      (0 < n_samples)%nat -> (Z.of_nat n_samples <= 2 ^ 48)%Z ->
      within_range (ensemble_score n_samples) -> within_range (network_score n_samples) ->
      exists df X y,
        fst (TrainModel.generate_synthetic_data n_samples s0) = inr df
        /\ fst (ConvertToTflite.generate_training_data n_samples s0) = inr (X, y)
        /\ (positives (df_get "is_stressed" df) <= n_samples - 7 * (n_samples - 1) / 10)%nat
        /\ (positives y <= n_samples - 7 * (n_samples - 1) / 10)%nat
        /\ ((7 * (n_samples - 1)) mod 10 <> 0 ->
            positives (df_get "is_stressed" df)
            <= n_samples - 1 - 7 * (n_samples - 1) / 10)%nat
        /\ ((7 * (n_samples - 1)) mod 10 <> 0 ->
            positives y <= n_samples - 1 - 7 * (n_samples - 1) / 10)%nat)
  /\ (within_range (ensemble_score 1000) ->
      exists df, fst (TrainModel.generate_synthetic_data 1000 s0) = inr df
                 /\ (positives (df_get "is_stressed" df) <= 300)%nat)
  /\ (within_range (network_score 2000) ->
      exists X y, fst (ConvertToTflite.generate_training_data 2000 s0) = inr (X, y)
                  /\ (positives y <= 600)%nat).
Proof.
  assert (Hs : forall n, (0 < n)%nat -> (Z.of_nat n <= 2 ^ 48)%Z ->
             exists df, fst (TrainModel.generate_synthetic_data n s0) = inr df
               /\ (positives (df_get "is_stressed" df) <= n - 7 * (n - 1) / 10)%nat
               /\ ((7 * (n - 1)) mod 10 <> 0 ->
                   positives (df_get "is_stressed" df) <= n - 1 - 7 * (n - 1) / 10)%nat).
  { intros n Hn Hbig.
    destruct (generate_synthetic_data_returns n s0 Hn) as (t & Ht & Hgen).
    eexists. split; [exact Hgen|]. rewrite df_get_label.
    pose proof (positives_rank_le (ensemble_score n) t Ht) as H.
    rewrite ensemble_score_length in H. exact (H Hbig). }
  assert (Hc : forall n, (0 < n)%nat -> (Z.of_nat n <= 2 ^ 48)%Z ->
             exists X y, fst (ConvertToTflite.generate_training_data n s0) = inr (X, y)
               /\ (positives y <= n - 7 * (n - 1) / 10)%nat
               /\ ((7 * (n - 1)) mod 10 <> 0 ->
                   positives y <= n - 1 - 7 * (n - 1) / 10)%nat).
  { intros n Hn Hbig.
    destruct (generate_training_data_returns n s0 Hn) as (t & Ht & Hgen).
    eexists. eexists. split; [exact Hgen|].
    pose proof (positives_rank_le (network_score n) t Ht) as H.
    rewrite network_score_length in H. exact (H Hbig). }
  split; [|split].
  - intros n Hn Hbig _ _.
    destruct (Hs n Hn Hbig) as (df & Hdf & H1 & H2).
    destruct (Hc n Hn Hbig) as (X & y & HXy & H3 & H4).
    exists df, X, y. repeat split; assumption.
  - intros _. destruct (Hs 1000%nat ltac:(lia) ltac:(lia)) as (df & Hdf & _ & H2).
    exists df. split; [exact Hdf|]. apply H2. vm_compute. discriminate.
  - intros _. destruct (Hc 2000%nat ltac:(lia) ltac:(lia)) as (X & y & HXy & _ & H2).
    exists X, y. split; [exact HXy|]. apply H2. vm_compute. discriminate.
Qed.

Lemma within_range_check (score : ndarray) :
  forallb (fun s => Qle_bool (Qabs s) (pow2 1022)) score = true -> within_range score.
Proof.
  intros H. apply Forall_forall. intros s Hs.
  rewrite forallb_forall in H. apply Qle_bool_iff, H, Hs.
Qed.

(** Ninety-one samples drawn by the toy generator: at most 28 positives. *)
Lemma X6_positive_share_bounded_witness :
  exists df,
    fst (TrainModel.generate_synthetic_data (R := Toy.random) 91 0%nat) = inr df
    /\ (positives (df_get "is_stressed" df) <= 28)%nat.
Proof.
  destruct (X6_positive_share_bounded Toy.random 0%nat) as (H & _ & _).
  destruct (H 91%nat ltac:(lia) ltac:(vm_compute; discriminate)
              ltac:(apply within_range_check; vm_compute; reflexivity)
              ltac:(apply within_range_check; vm_compute; reflexivity))
    as (df & X & y & Hdf & _ & Hb & _).
  exists df. split; [exact Hdf | exact Hb].
Defined.

(** ** Ties *)

(** X7: a batch whose scores are all equal gets no positive label at all,
    whatever its size: the 30% share is not reached by construction.  (On an
    empty batch the labeler raises in both pipelines.) *)
Theorem X7_tied_batch_has_no_positive (x : Q) (score : ndarray) :
  Forall (fun s => s == x)%Q score ->
  match TrainModel.label score, ConvertToTflite.label score with
  | inr labels, inr labels' => positives labels = 0%nat /\ positives labels' = 0%nat
  | inl _, inl _ => score = []
  | _, _ => False
  end.
Proof.
  intros Hall. change (ConvertToTflite.label score) with (TrainModel.label score).
  destruct score as [|s0 score']; [reflexivity|].
  set (score := s0 :: score') in *.
  destruct (label_nonempty score) as (t & Ht & Hl); [simpl; lia|].
  rewrite Hl.
  assert (H : positives (greater_than score t) = 0%nat); [|split; exact H].
  destruct (percentile_70_bounds score t Ht) as (Hn & Hlo & _).
  rewrite positives_greater_than. apply count_above_none.
  assert (Hall' : Forall (fun s => s == float64 x)%Q (asanyarray score)).
  { unfold asanyarray. apply Forall_forall. intros y Hy.
    apply in_map_iff in Hy. destruct Hy as (z & <- & Hz).
    rewrite Forall_forall in Hall. apply float64_comp, Hall, Hz. }
  assert (Hx : (float64 x <= t)%Q).
  { assert (Hin : In (nth (percentile_rank (length score)) (sort (asanyarray score)) 0%Q)
                     (asanyarray score)).
    { apply (Permutation_in _ (Permutation_sym (sort_perm _))).
      apply nth_In. rewrite length_sort, length_asanyarray.
      apply percentile_rank_below. exact Hn. }
    rewrite Forall_forall in Hall'. rewrite <- (Hall' _ Hin). exact Hlo. }
  eapply Forall_impl; [|exact Hall']. intros s Hs. cbv beta in Hs. rewrite Hs. exact Hx.
Qed.

(** Four samples with the score 3. *)
Lemma X7_tied_batch_has_no_positive_witness :
  exists labels, TrainModel.label [3; 3; 3; 3]%Q = inr labels /\ positives labels = 0%nat.
Proof.
  pose proof (X7_tied_batch_has_no_positive 3 [3; 3; 3; 3]%Q
                ltac:(repeat constructor)) as H.
  destruct (TrainModel.label [3; 3; 3; 3]%Q) as [e|labels] eqn:E1;
    destruct (ConvertToTflite.label [3; 3; 3; 3]%Q) as [e'|labels'] eqn:E2;
    try contradiction; try discriminate.
  exists labels. split; [reflexivity | apply H].
Defined.

(** ** The hold-out split keeps samples and labels together *)

Lemma combine_skipn {A B} (n : nat) (l : list A) (l' : list B) :
  skipn n (combine l l') = combine (skipn n l) (skipn n l').
Proof.
  revert l l'. induction n as [|n IH]; intros [|x l] [|y l']; cbn; try reflexivity.
  - now destruct (skipn n l).
  - apply IH.
Qed.

(** X9: the split of [train_and_convert] cuts the features and the labels at
    the same place: pairing each training row with its training label and
    each test row with its test label gives back, in order, the pairs of the
    whole data set. *)
Theorem X9_holdout_split_keeps_pairs {A B} (X : list A) (y : list B) :
  let parts := ConvertToTflite.holdout_split X y in
  (combine (fst (fst parts)) (fst (snd parts))
   ++ combine (snd (fst parts)) (snd (snd parts)))%list
  = combine X y.
Proof.
  intros parts. subst parts. rewrite holdout_split_eq. cbn [fst snd].
  rewrite <- combine_firstn, <- combine_skipn. apply firstn_skipn.
Qed.

(** ** What the scripts leave on the disk *)

(** X10: [train_and_convert] writes stress_model.keras and
    stress_model.tflite and no other file: every other path holds after the
    run what it held before, and the compact file holds the conversion of the
    weights reached after the 50 epochs.  What was printed before the run
    stays at the head of the output. *)
Theorem X10_train_and_convert_writes_two_files (R : NumpyRandom) (T : Tensorflow)
  (P : PythonText) (w : World) (p : string) :
  String.eqb p "stress_model.keras" = false ->
  String.eqb p "stress_model.tflite" = false ->
  fs (snd (ConvertToTflite.train_and_convert w)) p = fs w p
  /\ fs (snd (ConvertToTflite.train_and_convert w)) "stress_model.tflite"
     = Some (tflite_convert [DEFAULT] ConvertToTflite.stress_model_layers
                            (fst (state_after 50 w)))
  /\ exists tail, stdout (snd (ConvertToTflite.train_and_convert w))
                  = (stdout w ++ tail)%list.
Proof.
  intros Hk Ht. rewrite train_and_convert_disk. split; [|split].
  - unfold convert_disk, ConvertToTflite.tflite_path. now rewrite Ht, Hk.
  - reflexivity.
  - destruct (train_and_convert_report w) as [tail Htail].
    rewrite Htail. unfold convert_report. rewrite <- !app_assoc.
    eexists. reflexivity.
Qed.

(** On the toy machine the run does not create the ensemble file. *)
Lemma X10_train_and_convert_writes_two_files_witness :
  fs (snd (ConvertToTflite.train_and_convert (P := Toy.text) Toy.empty_world))
     "stress_rf_model.pkl"
  = None.
Proof.
  destruct (X10_train_and_convert_writes_two_files
              Toy.random Toy.tensorflow Toy.text Toy.empty_world "stress_rf_model.pkl"
              eq_refl eq_refl) as (H & _).
  exact H.
Defined.

(** X11: the two scripts compose.  After [train_model.py] has run, provided
    joblib can load back what it dumped, [convert_to_tflite.py] gets past its
    load and runs [train_and_convert]; the compact model it writes is the one
    it would have written had the ensemble script not run before; and the
    ensemble file is still on the disk afterwards. *)
Theorem X11_scripts_compose (R : NumpyRandom) (S : Sklearn) (T : Tensorflow)
  (P : PythonText) (w : World) (m : RandomForestClassifier) :
  joblib_loads (joblib_dumps ensemble_model) = Some m ->
  let w1 := snd (TrainModel.main w) in
  ConvertToTflite.main w1 = ConvertToTflite.train_and_convert w1
  /\ compact_model w1 = compact_model w
  /\ fs (snd (ConvertToTflite.main w1)) "stress_rf_model.pkl"
     = Some (joblib_dumps ensemble_model).
Proof.
  intros Hload w1.
  assert (Hfile : fs w1 "stress_rf_model.pkl" = Some (joblib_dumps ensemble_model)).
  { subst w1. unfold TrainModel.main. rewrite train_model_run. reflexivity. }
  assert (Hmain : ConvertToTflite.main w1 = ConvertToTflite.train_and_convert w1).
  { unfold ConvertToTflite.main, ConvertToTflite.joblib_load, read_file, bind at 1 2.
    rewrite Hfile, Hload. reflexivity. }
  split; [exact Hmain|]. split.
  - subst w1. unfold TrainModel.main, compact_model, state_after.
    rewrite train_model_run. reflexivity.
  - rewrite Hmain, train_and_convert_disk.
    unfold convert_disk. cbn [String.eqb Ascii.eqb Bool.eqb ConvertToTflite.tflite_path].
    exact Hfile.
Qed.

(** On the toy machine, whose joblib loads every file. *)
Lemma X11_scripts_compose_witness :
  let w1 := snd (TrainModel.main (R := Toy.random) (S := Toy.sklearn) (T := Toy.tensorflow)
                                 (P := Toy.text) Toy.empty_world) in
  ConvertToTflite.main (S := Toy.sklearn) (P := Toy.text) w1
  = ConvertToTflite.train_and_convert (P := Toy.text) w1
  /\ compact_model w1 = compact_model Toy.empty_world
  /\ fs (snd (ConvertToTflite.main (S := Toy.sklearn) (P := Toy.text) w1))
        "stress_rf_model.pkl"
     = Some (joblib_dumps (ensemble_model (R := Toy.random) (S := Toy.sklearn))).
Proof.
  exact (X11_scripts_compose Toy.random Toy.sklearn Toy.tensorflow Toy.text
           Toy.empty_world
           {| n_estimators := 0; random_state := 0; max_depth := None |} eq_refl).
Defined.
